(** * API gateway of the microservices sample (sample-app/03-microservices/api-gateway/app.py)

    A shallow embedding of the gateway: the request and response values, the
    Python dictionaries the forwarder builds from the framework's multi-dicts,
    the outbound HTTP client as an oracle together with a log of the calls
    issued, the handlers of app.py, and the dispatch the application object
    performs around them (CORS middleware, router, exception handlers).

    What belongs to the frameworks and not to app.py is embedded from their
    documented behaviour and marked as such where it is defined:
    Starlette's [Router] and [Route.matches], its [Headers] and [QueryParams]
    mappings, its [CORSMiddleware] preflight, FastAPI's path-parameter
    validation and exception handlers, and httpx's [Headers] mapping.
    Real time is not modelled: a timeout is the number handed to the client,
    and its expiry is the exception the client raises. *)

From Stdlib Require Import ZArith Lia Ascii DecimalString.
From stdpp Require Import base strings list gmap.

Local Open Scope Z_scope.

(** ** Strings and bytes *)

Abbreviation bytes := (list Byte.byte).

(** [bytes.lower()] / [str.lower()] on ASCII letters. *)
Definition ascii_lower (c : ascii) : ascii :=
  let n := N_of_ascii c in
  if ((65 <=? n) && (n <=? 90))%N then ascii_of_N (n + 32) else c.

Fixpoint lower (s : string) : string :=
  match s with
  | EmptyString => EmptyString
  | String c s' => String (ascii_lower c) (lower s')
  end.

(** [sep.join(l)] *)
Fixpoint join (sep : string) (l : list string) : string :=
  match l with
  | [] => ""
  | [x] => x
  | x :: l' => x +:+ sep +:+ join sep l'
  end.

(** [str(n)] for a Python int. *)
Definition str_of_int (n : Z) : string := NilZero.string_of_int (Z.to_int n).

(** ** Python dictionaries

    A [dict] keeps its keys in insertion order and holds each key once; an
    assignment to a key that is present replaces the value in place. *)
Module PyDict.
Section dict.
Context {V : Type}.

Definition t := list (string * V).

Definition empty : t := [].

Fixpoint get (k : string) (d : t) : option V :=
  match d with
  | [] => None
  | (k', v) :: d' => if String.eqb k' k then Some v else get k d'
  end.

(** [d[k] = v] *)
Fixpoint set (k : string) (v : V) (d : t) : t :=
  match d with
  | [] => [(k, v)]
  | (k', v') :: d' =>
      if String.eqb k' k then (k', v) :: d' else (k', v') :: set k v d'
  end.

(** [d.pop(k, None)], the popped value dropped. *)
Fixpoint pop (k : string) (d : t) : t :=
  match d with
  | [] => []
  | (k', v) :: d' => if String.eqb k' k then d' else (k', v) :: pop k d'
  end.

Definition keys (d : t) : list string := map fst d.

(** [{k: v for k, v in items}] *)
Definition of_items (items : list (string * V)) : t :=
  fold_left (fun d kv => set (fst kv) (snd kv) d) items empty.

(** [dict(m)] for an object [m] with a [keys()] method: every key [k] of
    [m.keys()] in turn is assigned [m[k]]. *)
Definition of_mapping (ks : list string) (getitem : string -> option V) : t :=
  fold_left (fun d k => match getitem k with
                        | Some v => set k v d
                        | None => d
                        end) ks empty.
End dict.
Arguments t : clear implicits.
End PyDict.

(** ** The framework's multi-dicts *)

(** A multi-dict is the list of its (key, value) items, repeated keys kept. *)
Abbreviation items := (list (string * string)).

(** Starlette [Headers]: [keys()] lists the key of every item, and
    [h[key]] is the value of the first item with that key.  The names are
    the ASGI ones, which the server hands over in lower case. *)
Module StarletteHeaders.
Definition keys (h : items) : list string := map fst h.

Fixpoint getitem (h : items) (key : string) : option string :=
  match h with
  | [] => None
  | (k, v) :: h' => if String.eqb k key then Some v else getitem h' key
  end.

Definition contains (h : items) (key : string) : bool :=
  match getitem h key with Some _ => true | None => false end.

Definition to_dict (h : items) : PyDict.t string :=
  PyDict.of_mapping (keys h) (getitem h).
End StarletteHeaders.

(** Starlette [QueryParams] (an [ImmutableMultiDict]): the constructor keeps
    [_dict = {k: v for k, v in items}]; [keys()] and [q[key]] read [_dict]. *)
Module QueryParams.
Definition _dict (q : items) : PyDict.t string := PyDict.of_items q.

Definition keys (q : items) : list string := PyDict.keys (_dict q).

Definition getitem (q : items) (key : string) : option string :=
  PyDict.get key (_dict q).

Definition to_dict (q : items) : PyDict.t string :=
  PyDict.of_mapping (keys q) (getitem q).
End QueryParams.

(** httpx [Headers]: every item is stored with its lower-cased key;
    [keys()] lists each lower-cased key once, and [h[key]] joins the values
    of all items of that key with a comma. *)
Module HttpxHeaders.
Definition keys (h : items) : list string :=
  PyDict.keys (PyDict.of_items (map (fun kv => (lower (fst kv), tt)) h)).

Definition values (h : items) (key : string) : list string :=
  map snd (filter (fun kv => String.eqb (lower (fst kv)) (lower key) = true) h).

Definition getitem (h : items) (key : string) : option string :=
  match values h key with
  | [] => None
  | vs => Some (join ", " vs)
  end.

Definition to_dict (h : items) : PyDict.t string :=
  PyDict.of_mapping (keys h) (getitem h).
End HttpxHeaders.

(** ** Requests, responses and the outbound client *)

(** The inbound request as the handlers read it. *)
Record Request := {
  req_method : string;        (* request.method *)
  req_path : string;          (* scope["path"] *)
  req_query_params : items;   (* request.query_params *)
  req_headers : items;        (* request.headers *)
  req_body : bytes            (* await request.body() *)
}.

(** The arguments of one [client.request(...)] / [client.get(...)], with
    the timeout of the client that issues it. *)
Record OutboundCall := {
  call_timeout : Z;
  call_method : string;
  call_url : string;
  call_headers : PyDict.t string;
  call_content : option bytes;
  call_params : PyDict.t string
}.

(** An [httpx.Response]. *)
Record BackendResponse := {
  backend_status_code : Z;
  backend_content : bytes;
  backend_headers : items
}.

(** The exceptions of the outbound call, by the [except] clause of
    [forward_request] that they are an instance of. *)
Inductive TransportError :=
| ConnectError (msg : string)        (* httpx.ConnectError *)
| TimeoutException (msg : string)    (* httpx.TimeoutException *)
| OtherException (msg : string).     (* any other Exception; msg is str(e) *)

Inductive Outcome :=
| Responded (response : BackendResponse)
| Failed (e : TransportError).

(** The [services_health] dictionary and the value [health] returns. *)
Record HealthReport := {
  report_gateway : string;
  report_services : gmap string string
}.

(** What a response of the gateway carries. *)
Inductive Content :=
| Raw (body : bytes)                      (* Response(content=...) *)
| Detail (detail : string)                (* JSON {"detail": "<detail>"} *)
| ValidationErrors                        (* JSON {"detail": [...]}, FastAPI's error list *)
| GatewayInfo (service version architecture : string)
              (services : PyDict.t string) (* the dictionary of root() *)
| Health (report : HealthReport)
| PlainText (text : string)               (* PlainTextResponse *)
| RedirectTo (path : string)              (* RedirectResponse *)
| Documentation.                          (* FastAPI's generated pages *)

(** A response object, by the arguments it is built from. *)
Record Response := {
  status_code : Z;
  content : Content;
  headers : PyDict.t string;
  media_type : option string
}.

Definition JSONResponse (status : Z) (c : Content) : Response :=
  {| status_code := status; content := c; headers := PyDict.empty;
     media_type := Some "application/json" |}.

(** [raise HTTPException(status_code=..., detail=...)] *)
Record HTTPException := {
  exc_status_code : Z;
  exc_detail : string
}.

(** ** Handlers: a log of outbound calls, and a raised exception *)

Inductive Result (A : Type) :=
| Return (a : A)
| Raise (e : HTTPException).
Arguments Return {A} a.
Arguments Raise {A} e.

Definition Handler (A : Type) : Type :=
  list OutboundCall -> Result A * list OutboundCall.

Definition ret {A} (a : A) : Handler A := fun log => (Return a, log).

Definition raise {A} (e : HTTPException) : Handler A := fun log => (Raise e, log).

Definition bind {A B} (m : Handler A) (k : A -> Handler B) : Handler B :=
  fun log =>
    match m log with
    | (Return a, log') => k a log'
    | (Raise e, log') => (Raise e, log')
    end.

Notation "x <- m ;; k" := (bind m (fun x => k))
  (at level 100, m at next level, right associativity).

(** Configuration read from the environment when the module is loaded. *)
Record Config := {
  TASK_SERVICE_URL : string;
  USER_SERVICE_URL : string;
  PROJECT_SERVICE_URL : string
}.

(** The defaults of [os.getenv]. *)
Definition default_config : Config :=
  {| TASK_SERVICE_URL := "http://localhost:8003";
     USER_SERVICE_URL := "http://localhost:8004";
     PROJECT_SERVICE_URL := "http://localhost:8005" |}.

(** ** Route patterns (Starlette's [compile_path] and [Route.matches])

    A path format such as [/tasks/{task_id}/status] compiles to the regular
    expression [^/tasks/(?P<task_id>[^/]+)/status$], matched from the start
    of the path.  In the formats of this application every parameter is
    followed by a [/] or by the end, so the parameter takes the longest run
    of characters other than [/].  Python's [$] also matches just before a
    final newline. *)

Inductive Piece :=
| Lit (s : string)
| Param (name : string).

Definition newline : ascii := ascii_of_nat 10.

Definition at_end (s : string) : bool :=
  match s with
  | EmptyString => true
  | String c EmptyString => Ascii.eqb c newline
  | _ => false
  end.

Fixpoint strip_prefix (p s : string) : option string :=
  match p with
  | EmptyString => Some s
  | String c p' =>
      match s with
      | EmptyString => None
      | String c' s' => if Ascii.eqb c c' then strip_prefix p' s' else None
      end
  end.

(** The longest prefix without [/], and what follows it. *)
Fixpoint span_segment (s : string) : string * string :=
  match s with
  | EmptyString => ("", "")
  | String c s' =>
      if Ascii.eqb c "/" then ("", s)
      else let (seg, rest) := span_segment s' in (String c seg, rest)
  end.

Fixpoint match_pieces (ps : list Piece) (s : string) : option (PyDict.t string) :=
  match ps with
  | [] => if at_end s then Some [] else None
  | Lit l :: ps' =>
      match strip_prefix l s with
      | Some rest => match_pieces ps' rest
      | None => None
      end
  | Param name :: ps' =>
      let (seg, rest) := span_segment s in
      if String.eqb seg "" then None
      else match match_pieces ps' rest with
           | Some params => Some ((name, seg) :: params)
           | None => None
           end
  end.

(** The functions the routes are bound to: FastAPI's own documentation
    routes, then the decorated functions of app.py. *)
Inductive Endpoint :=
| E_openapi | E_swagger_ui_html | E_swagger_ui_redirect | E_redoc_html
| E_root | E_health
| E_tasks_route | E_task_by_id_route | E_task_status_route
| E_users_route | E_projects_route.

Record Route := {
  route_path : list Piece;
  route_methods : list string;
  route_endpoint : Endpoint
}.

Inductive Match := NONE | PARTIAL | FULL.

Definition allows (r : Route) (method : string) : bool :=
  existsb (String.eqb method) (route_methods r).

Definition matches (r : Route) (method path : string) : Match * PyDict.t string :=
  match match_pieces (route_path r) path with
  | Some path_params =>
      if allows r method then (FULL, path_params) else (PARTIAL, path_params)
  | None => (NONE, [])
  end.

(** [app.router.routes], in registration order: the routes [FastAPI(...)]
    adds for its default [openapi_url], [docs_url] and [redoc_url], then one
    route per decorator. *)
Definition routes : list Route :=
  [ {| route_path := [Lit "/openapi.json"]; route_methods := ["GET"; "HEAD"];
       route_endpoint := E_openapi |};
    {| route_path := [Lit "/docs"]; route_methods := ["GET"; "HEAD"];
       route_endpoint := E_swagger_ui_html |};
    {| route_path := [Lit "/docs/oauth2-redirect"]; route_methods := ["GET"; "HEAD"];
       route_endpoint := E_swagger_ui_redirect |};
    {| route_path := [Lit "/redoc"]; route_methods := ["GET"; "HEAD"];
       route_endpoint := E_redoc_html |};
    {| route_path := [Lit "/"]; route_methods := ["GET"];
       route_endpoint := E_root |};
    {| route_path := [Lit "/health"]; route_methods := ["GET"];
       route_endpoint := E_health |};
    {| route_path := [Lit "/tasks"]; route_methods := ["GET"; "POST"];
       route_endpoint := E_tasks_route |};
    {| route_path := [Lit "/tasks/"; Param "task_id"];
       route_methods := ["GET"; "PUT"; "PATCH"; "DELETE"];
       route_endpoint := E_task_by_id_route |};
    {| route_path := [Lit "/tasks/"; Param "task_id"; Lit "/status"];
       route_methods := ["PATCH"];
       route_endpoint := E_task_status_route |};
    {| route_path := [Lit "/users"]; route_methods := ["GET"; "POST"];
       route_endpoint := E_users_route |};
    {| route_path := [Lit "/projects"]; route_methods := ["GET"; "POST"];
       route_endpoint := E_projects_route |} ].

(** ** Resolution (Starlette's [Router.app])

    The first route that matches path and method handles the request;
    failing that, the first route that matches the path alone; failing that,
    with [redirect_slashes], a redirect when the path with its trailing
    slashes removed (or one added) matches some route; otherwise the
    router's [not_found]. *)

Fixpoint ends_with_slash (s : string) : bool :=
  match s with
  | EmptyString => false
  | String c EmptyString => Ascii.eqb c "/"
  | String _ s' => ends_with_slash s'
  end.

(** [s.rstrip("/")] *)
Fixpoint rstrip_slash (s : string) : string :=
  match s with
  | EmptyString => EmptyString
  | String c s' =>
      match rstrip_slash s' with
      | EmptyString => if Ascii.eqb c "/" then EmptyString else String c EmptyString
      | r => String c r
      end
  end.

Definition redirect_path (path : string) : string :=
  if ends_with_slash path then rstrip_slash path else path +:+ "/".

Fixpoint first_match (want : Match) (rs : list Route) (method path : string)
  : option (Route * PyDict.t string) :=
  match rs with
  | [] => None
  | r :: rs' =>
      match matches r method path, want with
      | (FULL, params), FULL => Some (r, params)
      | (PARTIAL, params), PARTIAL => Some (r, params)
      | _, _ => first_match want rs' method path
      end
  end.

Definition matches_some (rs : list Route) (method path : string) : bool :=
  existsb (fun r => match matches r method path with
                    | (NONE, _) => false
                    | _ => true
                    end) rs.

Inductive Resolution :=
| Resolved (r : Route) (path_params : PyDict.t string)
| MethodNotAllowed (r : Route)
| RedirectSlashes (path : string)
| NotFound.

Definition resolve_in (rs : list Route) (method path : string) : Resolution :=
  match first_match FULL rs method path with
  | Some (r, params) => Resolved r params
  | None =>
      match first_match PARTIAL rs method path with
      | Some (r, _) => MethodNotAllowed r
      | None =>
          if negb (String.eqb path "/") && matches_some rs method (redirect_path path)
          then RedirectSlashes (redirect_path path)
          else NotFound
      end
  end.

Definition resolve : string -> string -> Resolution := resolve_in routes.

(** ** The gateway *)

Section Gateway.

(** The environment of the process, the conversion FastAPI applies to a
    path parameter annotated [int] ([None]: the text is rejected), and the
    behaviour of the network under the outbound client. *)
Context (cfg : Config)
        (validate_int : string -> option Z)
        (network : OutboundCall -> Outcome).

(** [await client.request(...)]: the call is recorded, the network answers. *)
Definition client_request (call : OutboundCall) : Handler Outcome :=
  fun log => (Return (network call), log ++ [call]).

(** [await client.get(url)] on a client built with [timeout]. *)
Definition client_get (timeout : Z) (url : string) : Handler Outcome :=
  client_request {| call_timeout := timeout; call_method := "GET";
                    call_url := url; call_headers := PyDict.empty;
                    call_content := None; call_params := PyDict.empty |}.

(** The call [forward_request] hands to its 30-second client. *)
Definition outbound_call (service_url path method : string)
           (request : Request) (body : option bytes) : OutboundCall :=
  let url := service_url +:+ path in
  let headers := StarletteHeaders.to_dict (req_headers request) in
  (* Remove host header to avoid conflicts *)
  let headers := PyDict.pop "host" headers in
  {| call_timeout := 30;
     call_method := method;
     call_url := url;
     call_headers := headers;
     call_content := body;
     call_params := QueryParams.to_dict (req_query_params request) |}.

Definition forward_request (service_url path method : string)
           (request : Request) (body : option bytes) : Handler Response :=
  outcome <- client_request (outbound_call service_url path method request body) ;;
  match outcome with
  | Responded response =>
      ret {| content := Raw (backend_content response);
             status_code := backend_status_code response;
             headers := HttpxHeaders.to_dict (backend_headers response);
             media_type :=
               HttpxHeaders.getitem (backend_headers response) "content-type" |}
  | Failed (ConnectError _) =>
      raise {| exc_status_code := 503;
               exc_detail := "Service unavailable: " +:+ service_url |}
  | Failed (TimeoutException _) =>
      raise {| exc_status_code := 504;
               exc_detail := "Service timeout: " +:+ service_url |}
  | Failed (OtherException e) =>
      raise {| exc_status_code := 500;
               exc_detail := "Gateway error: " +:+ e |}
  end.

(** [GET /] *)
Definition root : Handler Response :=
  ret (JSONResponse 200
         (GatewayInfo "API Gateway" "1.0.0" "microservices"
            [("tasks", TASK_SERVICE_URL cfg);
             ("users", USER_SERVICE_URL cfg);
             ("projects", PROJECT_SERVICE_URL cfg)])).

(** [GET /health] *)
Definition health : Handler Response :=
  let services_health : gmap string string := ∅ in
  (* Check task service *)
  outcome <- client_get 5 (TASK_SERVICE_URL cfg +:+ "/health") ;;
  let services_health :=
    match outcome with
    | Responded response =>
        <["task-service" :=
            if backend_status_code response =? 200 then "healthy" else "unhealthy"]>
          services_health
    | Failed _ =>
        <["task-service" := "unreachable"]> services_health
    end in
  ret (JSONResponse 200
         (Health {| report_gateway := "healthy";
                    report_services := services_health |})).

(** [/tasks], methods GET and POST *)
Definition tasks_route (request : Request) : Handler Response :=
  let body := if String.eqb (req_method request) "POST"
              then Some (req_body request) else None in
  forward_request (TASK_SERVICE_URL cfg) "/tasks" (req_method request) request body.

(** [/tasks/{task_id}], methods GET, PUT, PATCH and DELETE *)
Definition task_by_id_route (request : Request) (task_id : Z) : Handler Response :=
  let body := if existsb (String.eqb (req_method request)) ["PUT"; "PATCH"]
              then Some (req_body request) else None in
  forward_request (TASK_SERVICE_URL cfg) ("/tasks/" +:+ str_of_int task_id)
                  (req_method request) request body.

(** [/tasks/{task_id}/status], method PATCH *)
Definition task_status_route (request : Request) (task_id : Z) : Handler Response :=
  let body := Some (req_body request) in
  forward_request (TASK_SERVICE_URL cfg)
                  ("/tasks/" +:+ str_of_int task_id +:+ "/status")
                  (req_method request) request body.

(** [/users], placeholder *)
Definition users_route (request : Request) : Handler Response :=
  ret (JSONResponse 501 (Detail "User service not implemented yet")).

(** [/projects], placeholder *)
Definition projects_route (request : Request) : Handler Response :=
  ret (JSONResponse 501 (Detail "Project service not implemented yet")).

(** [@app.exception_handler(404)] *)
Definition not_found_handler : Response :=
  JSONResponse 404 (Detail "Resource not found").

(** [@app.exception_handler(500)]: installed for exceptions no handler
    takes; an [HTTPException] of status 500 does not come here. *)
Definition internal_error_handler : Response :=
  JSONResponse 500 (Detail "Internal server error").

(** FastAPI's handler of [HTTPException]. *)
Definition is_body_allowed_for_status_code (status : Z) : bool :=
  negb ((status <? 200) || (status =? 204) || (status =? 205) || (status =? 304)).

Definition http_exception_handler (exc : HTTPException) : Response :=
  if is_body_allowed_for_status_code (exc_status_code exc)
  then JSONResponse (exc_status_code exc) (Detail (exc_detail exc))
  else {| status_code := exc_status_code exc; content := Raw [];
          headers := PyDict.empty; media_type := None |}.

(** The lookup of the exception middleware: a handler registered for the
    status code of the [HTTPException] comes first. *)
Definition handle_exception (exc : HTTPException) : Response :=
  if exc_status_code exc =? 404 then not_found_handler
  else http_exception_handler exc.

(** FastAPI's answer to a path parameter that fails validation. *)
Definition request_validation_error : Response :=
  JSONResponse 422 ValidationErrors.

(** The request handler FastAPI wraps around an endpoint: the declared
    parameters are validated, then the function is called. *)
Definition with_task_id (path_params : PyDict.t string)
           (endpoint : Z -> Handler Response) : Handler Response :=
  match PyDict.get "task_id" path_params with
  | Some text =>
      match validate_int text with
      | Some task_id => endpoint task_id
      | None => ret request_validation_error
      end
  | None => ret request_validation_error
  end.

Definition documentation : Handler Response :=
  ret {| status_code := 200; content := Documentation;
         headers := PyDict.empty; media_type := None |}.

Definition call_endpoint (e : Endpoint) (path_params : PyDict.t string)
           (request : Request) : Handler Response :=
  match e with
  | E_openapi | E_swagger_ui_html | E_swagger_ui_redirect | E_redoc_html =>
      documentation
  | E_root => root
  | E_health => health
  | E_tasks_route => tasks_route request
  | E_task_by_id_route => with_task_id path_params (task_by_id_route request)
  | E_task_status_route => with_task_id path_params (task_status_route request)
  | E_users_route => users_route request
  | E_projects_route => projects_route request
  end.

(** The router: [Route.handle] raises 405 on a partial match, and
    [Router.not_found] raises 404.  The [Allow] header of the 405, which
    lists a set of methods in the order of its iteration, is not part of
    the exception here. *)
Definition router (request : Request) : Handler Response :=
  match resolve (req_method request) (req_path request) with
  | Resolved r path_params => call_endpoint (route_endpoint r) path_params request
  | MethodNotAllowed _ =>
      raise {| exc_status_code := 405; exc_detail := "Method Not Allowed" |}
  | RedirectSlashes path =>
      ret {| status_code := 307; content := RedirectTo path;
             headers := PyDict.empty; media_type := None |}
  | NotFound =>
      raise {| exc_status_code := 404; exc_detail := "Not Found" |}
  end.

(** [CORSMiddleware] with [allow_origins], [allow_methods] and
    [allow_headers] all ["*"]: a preflight request is answered by the
    middleware and never reaches the router.  The headers the middleware
    adds to its own and to other responses are not part of [headers]
    here. *)
Definition ALL_METHODS : list string :=
  ["DELETE"; "GET"; "HEAD"; "OPTIONS"; "PATCH"; "POST"; "PUT"].

Definition is_preflight (request : Request) : bool :=
  StarletteHeaders.contains (req_headers request) "origin"
  && String.eqb (req_method request) "OPTIONS"
  && StarletteHeaders.contains (req_headers request) "access-control-request-method".

Definition PlainTextResponse (text : string) (status : Z) : Response :=
  {| status_code := status; content := PlainText text;
     headers := PyDict.empty; media_type := Some "text/plain" |}.

Definition preflight_response (request_headers : items) : Response :=
  match StarletteHeaders.getitem request_headers "access-control-request-method" with
  | Some requested_method =>
      if existsb (String.eqb requested_method) ALL_METHODS
      then PlainTextResponse "OK" 200
      else PlainTextResponse "Disallowed CORS method" 400
  | None => PlainTextResponse "OK" 200
  end.

(** The application: the response a request gets, and the outbound calls
    issued on the way, oldest first. *)
Definition respond (result : Result Response) : Response :=
  match result with
  | Return response => response
  | Raise exc => handle_exception exc
  end.

Definition app (request : Request) : Response * list OutboundCall :=
  if is_preflight request then (preflight_response (req_headers request), [])
  else let (result, log) := router request [] in (respond result, log).

(** A request reaches [forward_request] with this path and body. *)
Inductive forwards (request : Request) : string -> option bytes -> Prop :=
| forwards_tasks r params :
    resolve (req_method request) (req_path request) = Resolved r params ->
    route_endpoint r = E_tasks_route ->
    forwards request "/tasks"
      (if String.eqb (req_method request) "POST"
       then Some (req_body request) else None)
| forwards_task_by_id r params text task_id :
    resolve (req_method request) (req_path request) = Resolved r params ->
    route_endpoint r = E_task_by_id_route ->
    PyDict.get "task_id" params = Some text ->
    validate_int text = Some task_id ->
    forwards request ("/tasks/" +:+ str_of_int task_id)
      (if existsb (String.eqb (req_method request)) ["PUT"; "PATCH"]
       then Some (req_body request) else None)
| forwards_task_status r params text task_id :
    resolve (req_method request) (req_path request) = Resolved r params ->
    route_endpoint r = E_task_status_route ->
    PyDict.get "task_id" params = Some text ->
    validate_int text = Some task_id ->
    forwards request ("/tasks/" +:+ str_of_int task_id +:+ "/status")
      (Some (req_body request)).

End Gateway.

(** ** Predicates of the specification, over the route table of the source *)

(** A path that matches a registered pattern, and a method that some
    pattern matching the path allows. *)
Definition path_matches (r : Route) (path : string) : bool :=
  match match_pieces (route_path r) path with
  | Some _ => true
  | None => false
  end.

Definition known_path (path : string) : bool :=
  existsb (fun r => path_matches r path) routes.

Definition method_allowed (method path : string) : bool :=
  existsb (fun r => path_matches r path && allows r method) routes.

(** A text with a [/] in it is more than one path segment. *)
Fixpoint has_slash (s : string) : bool :=
  match s with
  | EmptyString => false
  | String c s' => Ascii.eqb c "/" || has_slash s'
  end.

(** The requests that carry their body to the backend, as the
    specification lists them: POST on [/tasks], PUT and PATCH on
    [/tasks/{id}], PATCH on [/tasks/{id}/status]. *)
Definition path_is (pattern : list Piece) (path : string) : bool :=
  match match_pieces pattern path with
  | Some _ => true
  | None => false
  end.

Definition carries_body (method path : string) : bool :=
  (path_is [Lit "/tasks"] path && String.eqb method "POST")
  || (path_is [Lit "/tasks/"; Param "task_id"] path
      && (String.eqb method "PUT" || String.eqb method "PATCH"))
  || (path_is [Lit "/tasks/"; Param "task_id"; Lit "/status"] path
      && String.eqb method "PATCH").

(** The call of the health probe. *)
Definition health_probe (cfg : Config) : OutboundCall :=
  {| call_timeout := 5; call_method := "GET";
     call_url := TASK_SERVICE_URL cfg +:+ "/health";
     call_headers := PyDict.empty; call_content := None;
     call_params := PyDict.empty |}.

(** ** A validator, networks and requests for the examples

    [decimal_int] reads an optional sign and decimal digits, which is the
    part of the integer syntax the examples need. *)

Fixpoint digits_value (acc : Z) (s : string) : option Z :=
  match s with
  | EmptyString => Some acc
  | String c s' =>
      let n := Z.of_N (N_of_ascii c) in
      if (48 <=? n) && (n <=? 57)
      then digits_value (10 * acc + (n - 48)) s'
      else None
  end.

Definition decimal_int (s : string) : option Z :=
  match s with
  | EmptyString => None
  | String "-" (String _ _ as s') => Z.opp <$> digits_value 0 s'
  | String "+" (String _ _ as s') => digits_value 0 s'
  | _ => digits_value 0 s
  end.

(** A network that gives every call the same outcome. *)
Definition always (outcome : Outcome) : OutboundCall -> Outcome := fun _ => outcome.

(** [GET <path>] without query or body. *)
Definition get (path : string) : Request :=
  {| req_method := "GET"; req_path := path; req_query_params := [];
     req_headers := [("host", "gateway:8006")]; req_body := [] |}.

(** A backend response that sets two cookies. *)
Definition two_cookies : BackendResponse :=
  {| backend_status_code := 200;
     backend_content := [];
     backend_headers := [("set-cookie", "a=1"); ("set-cookie", "b=2")] |}.

(** [GET /tasks?tag=a&tag=b], with two [accept] header lines. *)
Definition get_tasks_by_tags : Request :=
  {| req_method := "GET"; req_path := "/tasks";
     req_query_params := [("tag", "a"); ("tag", "b")];
     req_headers := [("host", "gateway:8006");
                     ("accept", "application/json");
                     ("accept", "text/plain")];
     req_body := [] |}.

(** [DELETE /tasks]: the path is registered, for GET and POST. *)
Definition delete_tasks : Request :=
  {| req_method := "DELETE"; req_path := "/tasks"; req_query_params := [];
     req_headers := [("host", "gateway:8006")]; req_body := [] |}.


(** [POST /tasks] with a body, and the call the forwarder makes for it. *)
Definition post_task : Request :=
  {| req_method := "POST"; req_path := "/tasks"; req_query_params := [];
     req_headers := [("host", "gateway:8006"); ("content-type", "text/plain")];
     req_body := String.list_byte_of_string "title=x" |}.

Definition post_task_call : OutboundCall :=
  outbound_call "http://localhost:8003" "/tasks" "POST" post_task
                (Some (req_body post_task)).

(** The route of [task_by_id_route], as [routes] lists it. *)
Definition task_by_id : Route :=
  {| route_path := [Lit "/tasks/"; Param "task_id"];
     route_methods := ["GET"; "PUT"; "PATCH"; "DELETE"];
     route_endpoint := E_task_by_id_route |}.

(** The value of the last item of a multi-dict with the given key. *)
Definition last_value (l : items) (key : string) : option string :=
  StarletteHeaders.getitem (rev l) key.

(** [PUT /tasks/5], [PATCH /tasks/5/status] and [DELETE /tasks/5], each
    sent with a body. *)
Definition put_task : Request :=
  {| req_method := "PUT"; req_path := "/tasks/5"; req_query_params := [];
     req_headers := [("host", "gateway:8006"); ("content-type", "text/plain")];
     req_body := String.list_byte_of_string "title=y" |}.

Definition patch_task_status : Request :=
  {| req_method := "PATCH"; req_path := "/tasks/5/status";
     req_query_params := [];
     req_headers := [("host", "gateway:8006"); ("content-type", "text/plain")];
     req_body := String.list_byte_of_string "status=done" |}.

Definition delete_task_with_body : Request :=
  {| req_method := "DELETE"; req_path := "/tasks/5"; req_query_params := [];
     req_headers := [("host", "gateway:8006"); ("content-type", "text/plain")];
     req_body := String.list_byte_of_string "ignored" |}.

(** * The task service behind the gateway
      (sample-app/03-microservices/task-service/app.py, shared/domain/task.py)

    The backend the gateway forwards to.  A [str] is a [string], one
    character per code point below 256.  The sanitiser's call into the
    bleach library, the text form of a [datetime] and the JSON form of a
    list of tags are parameters.  The table [tasks] is the list of its
    rows in rowid order, which is the order in which a full scan returns
    them, with the counter SQLite keeps for an AUTOINCREMENT key.  An
    [int] is a [Z]; SQLite's INTEGER is a signed 64-bit number, and the
    [sqlite3] module raises [OverflowError] when it binds an [int] outside
    that range to a statement.  An exception inside [with
    self.get_connection()] rolls the transaction back, so a method that
    raises leaves the table as it was.  A text value is taken to be below
    SQLite's limit on the length of a string.  [datetime.utcnow()] is an
    argument of the operations that read the clock. *)
Module TaskService.

(** [TaskStatus] and [TaskPriority] (shared/domain/task.py) *)
Inductive TaskStatus := TODO | IN_PROGRESS | DONE.
Inductive TaskPriority := LOW | MEDIUM | HIGH.

(** [status.value] *)
Definition TaskStatus_value (s : TaskStatus) : string :=
  match s with
  | TODO => "todo"
  | IN_PROGRESS => "in_progress"
  | DONE => "done"
  end.

(** [TaskStatus(text)]; [None] stands for the [ValueError] of a text that
    is the value of no member. *)
Definition TaskStatus_of (text : string) : option TaskStatus :=
  if String.eqb text "todo" then Some TODO
  else if String.eqb text "in_progress" then Some IN_PROGRESS
  else if String.eqb text "done" then Some DONE
  else None.

Definition TaskPriority_value (p : TaskPriority) : string :=
  match p with
  | LOW => "low"
  | MEDIUM => "medium"
  | HIGH => "high"
  end.

Definition TaskPriority_of (text : string) : option TaskPriority :=
  if String.eqb text "low" then Some LOW
  else if String.eqb text "medium" then Some MEDIUM
  else if String.eqb text "high" then Some HIGH
  else None.

(** ** Sanitising *)

(** [str.isspace] on one character: the white space [str.strip()] removes. *)
Definition isspace (c : ascii) : bool :=
  let n := N_of_ascii c in
  ((9 <=? n) && (n <=? 13) || (28 <=? n) && (n <=? 32)
   || (n =? 133) || (n =? 160))%N.

Fixpoint lstrip (s : string) : string :=
  match s with
  | EmptyString => EmptyString
  | String c s' => if isspace c then lstrip s' else s
  end.

Fixpoint rstrip (s : string) : string :=
  match s with
  | EmptyString => EmptyString
  | String c s' =>
      match rstrip s' with
      | EmptyString => if isspace c then EmptyString else String c EmptyString
      | r => String c r
      end
  end.

(** [s.strip()] *)
Definition strip (s : string) : string := lstrip (rstrip s).

Definition starts_with_space (s : string) : bool :=
  match s with
  | EmptyString => false
  | String c _ => isspace c
  end.

Fixpoint ends_with_space (s : string) : bool :=
  match s with
  | EmptyString => false
  | String c EmptyString => isspace c
  | String _ s' => ends_with_space s'
  end.

Fixpoint take_chars (n : nat) (s : string) : string :=
  match n, s with
  | S n', String c s' => String c (take_chars n' s')
  | _, _ => EmptyString
  end.

(** [text[:stop]]: a negative [stop] counts from the end. *)
Definition slice_to (stop : Z) (text : string) : string :=
  if stop <? 0
  then take_chars (Z.to_nat (Z.of_nat (String.length text) + stop)) text
  else take_chars (Z.to_nat stop) text.

Section Sanitize.
(** [bleach.clean(text, tags=[], strip=True)] *)
Context (bleach_clean : string -> string).

Definition sanitize_string (text : string) (max_length : Z) : string :=
  if String.eqb text "" then text
  else
    let text := slice_to max_length text in
    strip (bleach_clean text).

Definition sanitize_tags (tags : list string) : list string :=
  match tags with
  | [] => []
  | _ => map (fun tag => sanitize_string tag 50)
             (filter (fun tag => tag ≠ "") tags)
  end.
End Sanitize.

(** ** Integers and exceptions *)

(** The range of SQLite's INTEGER: from [-2**63] to [2**63 - 1]. *)
Definition INT64_MIN : Z := -9223372036854775808.
Definition INT64_MAX : Z := 9223372036854775807.

(** Whether [sqlite3] can bind the [int] to a statement. *)
Definition fits_int64 (n : Z) : bool := (INT64_MIN <=? n) && (n <=? INT64_MAX).

(** The exceptions the methods of [TaskDatabase] raise. *)
Inductive Exception :=
| OverflowError      (* "Python int too large to convert to SQLite INTEGER" *)
| OperationalError   (* SQLITE_FULL: AUTOINCREMENT has no id left *)
| ValueError.        (* a column that [_row_to_task] cannot parse *)

(** What a call of a method comes to. *)
Inductive Answer (A : Type) :=
| Returns (value : A)
| Raises (error : Exception).
Arguments Returns {A} value.
Arguments Raises {A} error.

(** ** The task and its row *)

Section Database.
Context {datetime : Type}
        (isoformat : datetime -> string)               (* d.isoformat() *)
        (fromisoformat : string -> option datetime)    (* None: ValueError *)
        (json_dumps : list string -> string)
        (json_loads : string -> option (list string)). (* None: JSONDecodeError *)

(** The dataclass [Task]. *)
Record Task := {
  id : option Z;
  title : string;
  description : string;
  status : TaskStatus;
  priority : TaskPriority;
  user_id : Z;
  project_id : Z;
  created_at : datetime;
  updated_at : datetime;
  due_date : option datetime;
  tags : list string
}.

(** A row of the table [tasks]: the columns as they are stored. *)
Record Row := {
  row_id : Z;
  row_title : string;
  row_description : string;
  row_status : string;
  row_priority : string;
  row_user_id : Z;
  row_project_id : Z;
  row_created_at : string;
  row_updated_at : string;
  row_due_date : option string;
  row_tags : option string
}.

Record Database := {
  rows : list Row;     (* in rowid order *)
  sequence : Z         (* the largest id handed out so far *)
}.

(** The table [init_db] creates. *)
Definition empty_database : Database := {| rows := []; sequence := 0 |}.

(** [TaskDatabase._row_to_task]; [None] stands for the exception a column
    that does not parse raises. *)
Definition _row_to_task (row : Row) : option Task :=
  status ← TaskStatus_of (row_status row);
  priority ← TaskPriority_of (row_priority row);
  created_at ← fromisoformat (row_created_at row);
  updated_at ← fromisoformat (row_updated_at row);
  due_date ← match row_due_date row with
             | Some text =>
                 if String.eqb text "" then Some None
                 else Some <$> fromisoformat text
             | None => Some None
             end;
  tags ← match row_tags row with
         | Some text => if String.eqb text "" then Some [] else json_loads text
         | None => Some []
         end;
  Some {| id := Some (row_id row);
          title := row_title row;
          description := row_description row;
          status := status;
          priority := priority;
          user_id := row_user_id row;
          project_id := row_project_id row;
          created_at := created_at;
          updated_at := updated_at;
          due_date := due_date;
          tags := tags |}.

(** The largest rowid of the table, 0 when it is empty. *)
Definition max_rowid (table : list Row) : Z :=
  foldr (fun row m => Z.max (row_id row) m) 0 table.

(** [task.id = task_id] and [task.updated_at = now] *)
Definition set_id (task_id : Z) (task : Task) : Task :=
  {| id := Some task_id;
     title := title task; description := description task;
     status := status task; priority := priority task;
     user_id := user_id task; project_id := project_id task;
     created_at := created_at task; updated_at := updated_at task;
     due_date := due_date task; tags := tags task |}.

Definition set_updated_at (now : datetime) (task : Task) : Task :=
  {| id := id task;
     title := title task; description := description task;
     status := status task; priority := priority task;
     user_id := user_id task; project_id := project_id task;
     created_at := created_at task; updated_at := now;
     due_date := due_date task; tags := tags task |}.

(** [TaskDatabase.create_task]: the INSERT binds [user_id] and
    [project_id] and leaves the choice of the id to AUTOINCREMENT, one more
    than the largest id the table has ever held; when that is [2**63 - 1]
    the INSERT fails. *)
Definition create_task (task : Task) (db : Database) : Answer Task * Database :=
  if fits_int64 (user_id task) && fits_int64 (project_id task) then
    let largest := Z.max (sequence db) (max_rowid (rows db)) in
    if largest <? INT64_MAX then
      let lastrowid := largest + 1 in
      let row :=
        {| row_id := lastrowid;
           row_title := title task;
           row_description := description task;
           row_status := TaskStatus_value (status task);
           row_priority := TaskPriority_value (priority task);
           row_user_id := user_id task;
           row_project_id := project_id task;
           row_created_at := isoformat (created_at task);
           row_updated_at := isoformat (updated_at task);
           row_due_date := isoformat <$> due_date task;
           row_tags := Some (json_dumps (tags task)) |} in
      (Returns (set_id lastrowid task),
       {| rows := rows db ++ [row]; sequence := lastrowid |})
    else (Raises OperationalError, db)
  else (Raises OverflowError, db).

(** [cursor.fetchone()] of [SELECT * FROM tasks WHERE id = ?] *)
Definition fetchone (task_id : Z) (db : Database) : option Row :=
  head (filter (fun row => row_id row = task_id) (rows db)).

(** [TaskDatabase.get_task]: [None] when no row has the id. *)
Definition get_task (task_id : Z) (db : Database) : Answer (option Task) :=
  if fits_int64 task_id then
    match fetchone task_id db with
    | Some row =>
        match _row_to_task row with
        | Some task => Returns (Some task)
        | None => Raises ValueError
        end
    | None => Returns None
    end
  else Raises OverflowError.

(** [cursor.fetchall()] of the SELECT of [get_tasks] *)
Definition fetchall (user : option Z) (db : Database) : list Row :=
  match user with
  | Some u => filter (fun row => row_user_id row = u) (rows db)
  | None => rows db
  end.

(** [TaskDatabase.get_tasks] *)
Definition get_tasks (user : option Z) (db : Database) : Answer (list Task) :=
  if from_option fits_int64 true user then
    match mapM _row_to_task (fetchall user db) with
    | Some tasks => Returns tasks
    | None => Raises ValueError
    end
  else Raises OverflowError.

(** [cursor.rowcount] of a statement with [WHERE id = ?] *)
Definition rowcount (task_id : Z) (db : Database) : nat :=
  length (filter (fun row => row_id row = task_id) (rows db)).

(** [TaskDatabase.update_task]; [now] is [datetime.utcnow()].  The UPDATE
    binds [user_id], [project_id] and [task_id], and sets every column but
    [id] and [created_at]. *)
Definition update_task (task_id : Z) (task : Task) (now : datetime)
           (db : Database) : Answer (option Task) * Database :=
  let task := set_updated_at now task in
  let set_columns (row : Row) : Row :=
    if bool_decide (row_id row = task_id)
    then {| row_id := row_id row;
            row_title := title task;
            row_description := description task;
            row_status := TaskStatus_value (status task);
            row_priority := TaskPriority_value (priority task);
            row_user_id := user_id task;
            row_project_id := project_id task;
            row_created_at := row_created_at row;
            row_updated_at := isoformat (updated_at task);
            row_due_date := isoformat <$> due_date task;
            row_tags := Some (json_dumps (tags task)) |}
    else row in
  if fits_int64 (user_id task) && fits_int64 (project_id task)
     && fits_int64 task_id
  then
    let db' := {| rows := map set_columns (rows db); sequence := sequence db |} in
    if Nat.eqb (rowcount task_id db) 0 then (Returns None, db')
    else (Returns (Some (set_id task_id task)), db')
  else (Raises OverflowError, db).

(** [TaskDatabase.update_task_status]; the answer is that of [get_task]
    once the UPDATE is committed. *)
Definition update_task_status (task_id : Z) (new_status : TaskStatus)
           (now : datetime) (db : Database) : Answer (option Task) * Database :=
  let set_columns (row : Row) : Row :=
    if bool_decide (row_id row = task_id)
    then {| row_id := row_id row;
            row_title := row_title row;
            row_description := row_description row;
            row_status := TaskStatus_value new_status;
            row_priority := row_priority row;
            row_user_id := row_user_id row;
            row_project_id := row_project_id row;
            row_created_at := row_created_at row;
            row_updated_at := isoformat now;
            row_due_date := row_due_date row;
            row_tags := row_tags row |}
    else row in
  if fits_int64 task_id then
    let db' := {| rows := map set_columns (rows db); sequence := sequence db |} in
    if Nat.eqb (rowcount task_id db) 0 then (Returns None, db')
    else (get_task task_id db', db')
  else (Raises OverflowError, db).

(** [TaskDatabase.delete_task] *)
Definition delete_task (task_id : Z) (db : Database) : Answer bool * Database :=
  if fits_int64 task_id then
    (Returns (Nat.ltb 0 (rowcount task_id db)),
     {| rows := filter (fun row => row_id row ≠ task_id) (rows db);
        sequence := sequence db |})
  else (Raises OverflowError, db).

(** The methods that write, and the table after a run of them; a call that
    raises leaves the table as it was. *)
Inductive Operation :=
| Create (task : Task)
| Update (task_id : Z) (task : Task) (now : datetime)
| SetStatus (task_id : Z) (new_status : TaskStatus) (now : datetime)
| Delete (task_id : Z).

Definition step (db : Database) (op : Operation) : Database :=
  match op with
  | Create task => snd (create_task task db)
  | Update task_id task now => snd (update_task task_id task now db)
  | SetStatus task_id new_status now =>
      snd (update_task_status task_id new_status now db)
  | Delete task_id => snd (delete_task task_id db)
  end.

Definition run (ops : list Operation) (db : Database) : Database :=
  fold_left step ops db.

(** The states the table can be in: ids ascending down the table, positive,
    and none above the counter. *)
Fixpoint ascending (ids : list Z) : Prop :=
  match ids with
  | [] => True
  | i :: ids' => Forall (fun j => i < j) ids' ∧ ascending ids'
  end.

Definition valid (db : Database) : Prop :=
  ascending (map row_id (rows db))
  ∧ Forall (fun row => 0 < row_id row <= sequence db) (rows db).

(** The text forms of the task's dates and tags read back as they were. *)
Definition storable (task : Task) : Prop :=
  fromisoformat (isoformat (created_at task)) = Some (created_at task)
  ∧ fromisoformat (isoformat (updated_at task)) = Some (updated_at task)
  ∧ match due_date task with
    | Some d => fromisoformat (isoformat d) = Some d ∧ isoformat d ≠ ""
    | None => True
    end
  ∧ json_loads (json_dumps (tags task)) = Some (tags task)
  ∧ json_dumps (tags task) ≠ "".

(** Every row of the table parses. *)
Definition readable (db : Database) : Prop :=
  Forall (fun row => is_Some (_row_to_task row)) (rows db).

(** What the operation writes reads back. *)
Definition writable (op : Operation) : Prop :=
  match op with
  | Create task => storable task
  | Update _ task now => storable (set_updated_at now task)
  | SetStatus _ _ now => fromisoformat (isoformat now) = Some now
  | Delete _ => True
  end.

End Database.

End TaskService.

(** ** Stand-ins for the codecs, and a task, for the examples

    A date is kept as its own text; the JSON form is right for the empty
    list of tags, which is all the examples store. *)
Definition example_dumps (tags : list string) : string :=
  match tags with
  | [] => "[]"
  | _ => "[...]"
  end.

Definition example_loads (text : string) : option (list string) :=
  if String.eqb text "[]" then Some [] else None.

Definition example_task : @TaskService.Task string :=
  {| TaskService.id := None;
     TaskService.title := "Write the report";
     TaskService.description := "";
     TaskService.status := TaskService.TODO;
     TaskService.priority := TaskService.MEDIUM;
     TaskService.user_id := 7;
     TaskService.project_id := 1;
     TaskService.created_at := "2024-05-01T09:00:00";
     TaskService.updated_at := "2024-05-01T09:00:00";
     TaskService.due_date := None;
     TaskService.tags := [] |}.

(** The table after [example_task] was created in the empty one. *)
Definition example_database : TaskService.Database :=
  snd (TaskService.create_task (fun d => d) example_dumps example_task
         TaskService.empty_database).

(** * Properties *)

(** ** Strings and patterns *)

Lemma append_empty_r s : s +:+ "" = s.
Proof.
  induction s as [|c s IH]; [done|].
  change (String c (s +:+ "") = String c s). by rewrite IH.
Qed.

Lemma span_segment_whole seg :
  has_slash seg = false → span_segment seg = (seg, "").
Proof.
  induction seg as [|c seg IH]; simpl; [done|].
  intros [Hc Hs]%orb_false_iff. rewrite Hc, (IH Hs). done.
Qed.

Lemma span_segment_slash seg rest :
  has_slash seg = false →
  span_segment (seg +:+ String "/" rest) = (seg, String "/" rest).
Proof.
  induction seg as [|c seg IH]; simpl; [done|].
  intros [Hc Hs]%orb_false_iff. rewrite Hc, (IH Hs). done.
Qed.

Lemma span_segment_spec s seg rest :
  span_segment s = (seg, rest) →
  s = seg +:+ rest ∧ has_slash seg = false.
Proof.
  revert seg rest. induction s as [|c s IH]; simpl; intros seg rest.
  - intros [= <- <-]. done.
  - destruct (Ascii.eqb c "/") eqn:Hc.
    + intros [= <- <-]. done.
    + destruct (span_segment s) as [seg' rest'].
      intros [= <- <-]. destruct (IH _ _ eq_refl) as [-> Hs].
      simpl. rewrite Hc, Hs. done.
Qed.

Lemma strip_prefix_spec p s rest :
  strip_prefix p s = Some rest ↔ s = p +:+ rest.
Proof.
  revert s. induction p as [|c p IH]; simpl; intros s.
  - split; [intros [= ->]|intros ->]; done.
  - destruct s as [|c' s]; [split; discriminate|].
    destruct (Ascii.eqb_spec c c') as [->|Hne].
    + rewrite IH. split; [intros ->|intros [= ->]]; done.
    + split; [discriminate|intros [= ? ?]; done].
Qed.

(** ** Resolution *)

Lemma matches_full r method path params :
  matches r method path = (FULL, params) ↔
  match_pieces (route_path r) path = Some params ∧ allows r method = true.
Proof.
  unfold matches. destruct (match_pieces _ _); [destruct (allows _ _)|];
    split; try (intros [= <-]; done); try (intros [[= <-] ?]; done);
    intros [? ?]; done.
Qed.

Lemma matches_partial r method path params :
  matches r method path = (PARTIAL, params) ↔
  match_pieces (route_path r) path = Some params ∧ allows r method = false.
Proof.
  unfold matches. destruct (match_pieces _ _); [destruct (allows _ _)|];
    split; try (intros [= <-]; done); try (intros [[= <-] ?]; done);
    intros [? ?]; done.
Qed.

Lemma first_match_sound want rs method path r params :
  first_match want rs method path = Some (r, params) →
  r ∈ rs ∧ matches r method path = (want, params).
Proof.
  induction rs as [|r0 rs IH]; simpl; [done|].
  destruct (matches r0 method path) as [[] ps] eqn:Hm; destruct want; simpl;
    first [ intros [= <- <-]; split; [by constructor|done]
          | intros H; destruct (IH H); split; [by constructor|done] ].
Qed.

Lemma first_match_unknown want rs method path :
  existsb (fun r => path_matches r path) rs = false →
  first_match want rs method path = None.
Proof.
  induction rs as [|r0 rs IH]; simpl; [done|].
  intros [H0 Hrs]%orb_false_iff. unfold matches, path_matches in *.
  destruct (match_pieces _ _); [done|]. destruct want; auto.
Qed.

Lemma matches_some_unknown rs method path :
  existsb (fun r => path_matches r path) rs = false →
  matches_some rs method path = false.
Proof.
  induction rs as [|r0 rs IH]; simpl; [done|].
  intros [H0 Hrs]%orb_false_iff. rewrite (IH Hrs).
  unfold matches, path_matches in *. destruct (match_pieces _ _); done.
Qed.

Lemma first_match_full_disallowed rs method path :
  existsb (fun r => path_matches r path && allows r method) rs = false →
  first_match FULL rs method path = None.
Proof.
  induction rs as [|r0 rs IH]; simpl; [done|].
  intros [H0 Hrs]%orb_false_iff. unfold matches, path_matches in *.
  destruct (match_pieces _ _); [|auto].
  simpl in H0. rewrite H0. auto.
Qed.

Lemma first_match_partial_exists rs method path :
  existsb (fun r => path_matches r path) rs = true →
  existsb (fun r => path_matches r path && allows r method) rs = false →
  ∃ r params, first_match PARTIAL rs method path = Some (r, params).
Proof.
  induction rs as [|r0 rs IH]; simpl; [done|].
  intros Hk [H0 Hrs]%orb_false_iff. unfold matches, path_matches in *.
  destruct (match_pieces _ _) as [ps|].
  - simpl in H0. rewrite H0. eauto.
  - simpl in Hk. auto.
Qed.

Lemma resolve_unknown method path :
  known_path path = false → known_path (redirect_path path) = false →
  resolve method path = NotFound.
Proof.
  unfold known_path, resolve, resolve_in. intros Hp Hr.
  rewrite !(first_match_unknown _ _ _ _ Hp), (matches_some_unknown _ _ _ Hr).
  by rewrite andb_false_r.
Qed.

Lemma resolve_disallowed method path :
  known_path path = true → method_allowed method path = false →
  ∃ r, resolve method path = MethodNotAllowed r.
Proof.
  unfold known_path, method_allowed, resolve, resolve_in. intros Hp Hm.
  rewrite (first_match_full_disallowed _ _ _ Hm).
  destruct (first_match_partial_exists _ _ _ Hp Hm) as (r & ps & ->). eauto.
Qed.

Lemma resolve_resolved method path r params :
  resolve method path = Resolved r params →
  r ∈ routes ∧ match_pieces (route_path r) path = Some params
  ∧ allows r method = true.
Proof.
  unfold resolve, resolve_in.
  destruct (first_match FULL _ _ _) as [[r' ps]|] eqn:Hf.
  - intros [= <- <-]. apply first_match_sound in Hf as [? ?%matches_full]. tauto.
  - destruct (first_match PARTIAL _ _ _) as [[]|]; [done|].
    destruct (_ && _); done.
Qed.

(** ** Dictionaries built from multi-dicts without repeated keys *)

Lemma set_fresh {V} k (v : V) d :
  k ∉ PyDict.keys d → PyDict.set k v d = d ++ [(k, v)].
Proof.
  induction d as [|[k' v'] d IH]; simpl; [done|].
  intros [Hne Hk]%not_elem_of_cons.
  destruct (String.eqb_spec k' k); [congruence|]. by rewrite IH.
Qed.

Lemma keys_snoc {V} (d : PyDict.t V) k v :
  PyDict.keys (d ++ [(k, v)]) = PyDict.keys d ++ [k].
Proof. unfold PyDict.keys. by rewrite map_app. Qed.

Lemma of_mapping_distinct {V} (getitem : string → option V) l acc :
  NoDup (PyDict.keys acc ++ map fst l) →
  (∀ k v, (k, v) ∈ l → getitem k = Some v) →
  fold_left (fun d k => match getitem k with
                        | Some v => PyDict.set k v d
                        | None => d
                        end) (map fst l) acc = acc ++ l.
Proof.
  revert acc. induction l as [|[k v] l IH]; intros acc Hnd Hget; simpl.
  - by rewrite app_nil_r.
  - rewrite (Hget k v) by left.
    rewrite set_fresh.
    + rewrite IH.
      * by rewrite <- app_assoc.
      * rewrite keys_snoc, <- app_assoc. done.
      * intros k' v' Hin. apply Hget. by right.
    + apply NoDup_app in Hnd as (_ & Hd & _). intros Hin.
      apply (Hd _ Hin). by left.
Qed.

Lemma of_items_distinct {V} (l acc : PyDict.t V) :
  NoDup (PyDict.keys acc ++ map fst l) →
  fold_left (fun d kv => PyDict.set (fst kv) (snd kv) d) l acc = acc ++ l.
Proof.
  revert acc. induction l as [|[k v] l IH]; intros acc Hnd; simpl.
  - by rewrite app_nil_r.
  - rewrite set_fresh.
    + rewrite IH; [by rewrite <- app_assoc|].
      rewrite keys_snoc, <- app_assoc. done.
    + apply NoDup_app in Hnd as (_ & Hd & _). intros Hin.
      apply (Hd _ Hin). by left.
Qed.

Lemma get_distinct {V} (d : PyDict.t V) k v :
  NoDup (map fst d) → (k, v) ∈ d → PyDict.get k d = Some v.
Proof.
  induction d as [|[k' v'] d IH]; simpl; intros Hnd Hin.
  - by apply elem_of_nil in Hin.
  - apply NoDup_cons in Hnd as [Hk Hnd].
    apply elem_of_cons in Hin as [[= -> ->]|Hin].
    + by rewrite String.eqb_refl.
    + destruct (String.eqb_spec k' k) as [->|]; [|by apply IH].
      destruct Hk. apply list_elem_of_fmap. by exists (k, v).
Qed.

Lemma starlette_getitem_distinct h k v :
  NoDup (map fst h) → (k, v) ∈ h → StarletteHeaders.getitem h k = Some v.
Proof.
  induction h as [|[k' v'] h IH]; simpl; intros Hnd Hin.
  - by apply elem_of_nil in Hin.
  - apply NoDup_cons in Hnd as [Hk Hnd].
    apply elem_of_cons in Hin as [[= -> ->]|Hin].
    + by rewrite String.eqb_refl.
    + destruct (String.eqb_spec k' k) as [->|]; [|by apply IH].
      destruct Hk. apply list_elem_of_fmap. by exists (k, v).
Qed.

Lemma starlette_headers_distinct h :
  NoDup (map fst h) → StarletteHeaders.to_dict h = h.
Proof.
  intros Hnd. unfold StarletteHeaders.to_dict, PyDict.of_mapping, StarletteHeaders.keys.
  rewrite of_mapping_distinct; [done|done|].
  intros k v. by apply starlette_getitem_distinct.
Qed.

Lemma query_params_distinct q :
  NoDup (map fst q) → QueryParams.to_dict q = q.
Proof.
  intros Hnd.
  assert (Hd : QueryParams._dict q = q).
  { unfold QueryParams._dict, PyDict.of_items. by rewrite of_items_distinct. }
  unfold QueryParams.to_dict, PyDict.of_mapping, QueryParams.keys, QueryParams.getitem.
  rewrite Hd. unfold PyDict.keys.
  rewrite of_mapping_distinct; [done|done|].
  intros k v. by apply get_distinct.
Qed.

Lemma httpx_values_absent h k :
  k ∉ map fst h → lower k = k → Forall (fun kv => lower (fst kv) = fst kv) h →
  HttpxHeaders.values h k = [].
Proof.
  unfold HttpxHeaders.values. intros Hk Hlow Hall.
  induction Hall as [|[k' v'] h Hk' Hall IH]; [done|].
  simpl in *. apply not_elem_of_cons in Hk as [Hne Hk].
  rewrite filter_cons_False; [by apply IH|].
  simpl. rewrite Hk', Hlow. by destruct (String.eqb_spec k' k).
Qed.

Lemma httpx_values_distinct h k v :
  NoDup (map fst h) → Forall (fun kv => lower (fst kv) = fst kv) h →
  (k, v) ∈ h → HttpxHeaders.values h k = [v].
Proof.
  intros Hnd Hall. induction Hall as [|[k' v'] h Hk' Hall IH]; intros Hin.
  - by apply elem_of_nil in Hin.
  - simpl in *. apply NoDup_cons in Hnd as [Hk Hnd].
    apply elem_of_cons in Hin as [[= -> ->]|Hin].
    + pose proof (httpx_values_absent _ _ Hk Hk' Hall) as Hrest.
      unfold HttpxHeaders.values in *.
      rewrite filter_cons_True by (simpl; by rewrite String.eqb_refl).
      simpl. by rewrite Hrest.
    + assert (Hne : k' ≠ k).
      { intros ->. apply Hk, list_elem_of_fmap. by exists (k, v). }
      assert (Hlow : lower k = k).
      { rewrite Forall_forall in Hall. exact (Hall _ Hin). }
      specialize (IH Hnd Hin). unfold HttpxHeaders.values in *.
      rewrite filter_cons_False; [done|].
      simpl. rewrite Hk', Hlow. by destruct (String.eqb_spec k' k).
Qed.

Lemma httpx_headers_distinct h :
  NoDup (map fst h) → Forall (fun kv => lower (fst kv) = fst kv) h →
  HttpxHeaders.to_dict h = h.
Proof.
  intros Hnd Hall.
  assert (Hkeys : HttpxHeaders.keys h = map fst h).
  { unfold HttpxHeaders.keys, PyDict.of_items, PyDict.keys.
    assert (Hmap : map fst (map (fun kv : string * string => (lower (fst kv), ())) h)
                   = map fst h).
    { rewrite map_map. apply map_ext_Forall. exact Hall. }
    rewrite of_items_distinct; [done|]. simpl. by rewrite Hmap. }
  unfold HttpxHeaders.to_dict, PyDict.of_mapping. rewrite Hkeys.
  rewrite of_mapping_distinct; [done|done|].
  intros k v Hin. unfold HttpxHeaders.getitem.
  by rewrite (httpx_values_distinct _ _ _ Hnd Hall Hin).
Qed.

Lemma filter_other_keys {V} k (d : list (string * V)) :
  k ∉ map fst d → filter (fun kv => fst kv ≠ k) d = d.
Proof.
  induction d as [|[k' v'] d IH]; intros Hk; [done|].
  apply not_elem_of_cons in Hk as [Hne Hk].
  rewrite filter_cons_True by (simpl; intros Heq; by apply Hne). by rewrite IH.
Qed.

Lemma pop_distinct {V} k (d : list (string * V)) :
  NoDup (map fst d) → PyDict.pop k d = filter (fun kv => fst kv ≠ k) d.
Proof.
  induction d as [|[k' v'] d IH]; intros Hnd; [done|].
  apply NoDup_cons in Hnd as [Hk Hnd]. cbn [PyDict.pop].
  destruct (String.eqb_spec k' k) as [->|Hne].
  - rewrite filter_cons_False by (simpl; tauto).
    by rewrite filter_other_keys.
  - rewrite filter_cons_True by done. by rewrite IH.
Qed.

(** Where no query key and no header name repeats, the call of the
    forwarder carries the method, the query parameters as they came, and
    every header line but [host]. *)
Lemma outbound_call_without_repeats service_url path method request body :
  NoDup (map fst (req_query_params request)) →
  NoDup (map fst (req_headers request)) →
  call_method (outbound_call service_url path method request body) = method
  ∧ call_params (outbound_call service_url path method request body)
    = req_query_params request
  ∧ call_headers (outbound_call service_url path method request body)
    = filter (fun kv => fst kv ≠ "host") (req_headers request).
Proof.
  intros Hq Hh. unfold outbound_call. simpl.
  rewrite query_params_distinct, starlette_headers_distinct by done.
  by rewrite pop_distinct.
Qed.

(** ** Running the application *)

Section Run.
Context (cfg : Config)
        (validate_int : string -> option Z)
        (network : OutboundCall -> Outcome).

Local Abbreviation run := (app cfg validate_int network).
Local Abbreviation forward := (forward_request network).

Lemma is_preflight_method request :
  req_method request ≠ "OPTIONS" → is_preflight request = false.
Proof.
  intros Hm. unfold is_preflight.
  destruct (String.eqb_spec (req_method request) "OPTIONS"); [done|].
  by rewrite andb_false_r.
Qed.

Lemma forward_request_run service_url path method request body log :
  forward service_url path method request body log =
  (fst (forward service_url path method request body []),
   log ++ [outbound_call service_url path method request body]).
Proof.
  unfold forward_request, bind, client_request. simpl.
  destruct (network _) as [response|[]]; done.
Qed.

Lemma app_forwards request path body :
  is_preflight request = false →
  forwards validate_int request path body →
  run request =
  (respond (fst (forward (TASK_SERVICE_URL cfg) path
                   (req_method request) request body [])),
   [outbound_call (TASK_SERVICE_URL cfg) path (req_method request) request body]).
Proof.
  intros Hpre Hf. unfold app, router. rewrite Hpre.
  destruct Hf as [r ps Hr He|r ps text id Hr He Hg Hv|r ps text id Hr He Hg Hv];
    rewrite Hr, He; simpl; unfold with_task_id;
    rewrite ?Hg, ?Hv;
    unfold tasks_route, task_by_id_route, task_status_route;
    rewrite forward_request_run; done.
Qed.

(** Every call on the 30-second client is the call of [forward_request],
    and it is the only call of its request. *)
Lemma app_forwarder_call request response calls call :
  run request = (response, calls) →
  call ∈ calls → call_timeout call = 30 →
  ∃ path body,
    forwards validate_int request path body
    ∧ is_preflight request = false
    ∧ calls = [call]
    ∧ call = outbound_call (TASK_SERVICE_URL cfg) path
               (req_method request) request body.
Proof.
  unfold app, router.
  destruct (is_preflight request) eqn:Hpre.
  { intros [= <- <-] Hin. by apply elem_of_nil in Hin. }
  destruct (resolve _ _) as [r ps| | |] eqn:Hr; simpl;
    try (intros [= <- <-] Hin; by apply elem_of_nil in Hin).
  destruct (route_endpoint r) eqn:He; simpl;
    try (intros [= <- <-] Hin; by apply elem_of_nil in Hin).
  - (* health *)
    intros [= <- <-] Hin%list_elem_of_singleton Ht. subst call. done.
  - (* tasks_route *)
    unfold tasks_route. rewrite forward_request_run. simpl.
    intros [= <- <-] Hin%list_elem_of_singleton _. subst call.
    eexists _, _. split; [by eapply forwards_tasks|done].
  - (* task_by_id_route *)
    unfold with_task_id.
    destruct (PyDict.get "task_id" ps) as [text|] eqn:Hg;
      [destruct (validate_int text) as [id|] eqn:Hv|]; simpl;
      try (intros [= <- <-] Hin; by apply elem_of_nil in Hin).
    unfold task_by_id_route. rewrite forward_request_run. simpl.
    intros [= <- <-] Hin%list_elem_of_singleton _. subst call.
    eexists _, _. split; [by eapply forwards_task_by_id|done].
  - (* task_status_route *)
    unfold with_task_id.
    destruct (PyDict.get "task_id" ps) as [text|] eqn:Hg;
      [destruct (validate_int text) as [id|] eqn:Hv|]; simpl;
      try (intros [= <- <-] Hin; by apply elem_of_nil in Hin).
    unfold task_status_route. rewrite forward_request_run. simpl.
    intros [= <- <-] Hin%list_elem_of_singleton _. subst call.
    eexists _, _. split; [by eapply forwards_task_status|done].
Qed.

End Run.

(** The routes that forward allow no OPTIONS: a request that reaches
    [forward_request] is not a preflight. *)
Lemma forwards_not_preflight validate_int request path body :
  forwards validate_int request path body → is_preflight request = false.
Proof.
  intros Hf. apply is_preflight_method. intros Hm.
  destruct Hf as [r ps Hr He|r ps text id Hr He _ _|r ps text id Hr He _ _];
    apply resolve_resolved in Hr as (Hin & _ & Hallow);
    unfold routes in Hin;
    repeat (apply elem_of_cons in Hin as [->|Hin]; [try discriminate He|]);
    try (by apply elem_of_nil in Hin);
    unfold allows in Hallow; rewrite Hm in Hallow; by vm_compute in Hallow.
Qed.

(** ** The forwarder *)

(** The exceptions [forward_request] raises carry 503, 504 or 500. *)
Lemma forward_request_raises network service_url path method request body log exc :
  fst (forward_request network service_url path method request body log) = Raise exc →
  exc_status_code exc ∈ [503; 504; 500].
Proof.
  unfold forward_request, bind, client_request. simpl.
  destruct (network _) as [response|[]]; simpl; intros [= <-]; simpl;
    repeat first [apply list_elem_of_here | apply list_elem_of_further].
Qed.

(** C1. A request that reaches the forwarder issues one call, on the
    client with the 30-second timeout and to the task backend, and the
    answer of the gateway is fixed by the outcome of that call: a
    connection that cannot be established gives 503 and "Service
    unavailable: <base URL>", a timeout gives 504 and "Service timeout:
    <base URL>", any other fault gives 500 and "Gateway error: <message>",
    and a response of the backend is handed back; there is no further
    error outcome.  Conversely every call on the 30-second client is such
    a call. *)
Theorem forwarder_failure_translation cfg validate_int network request :
  (∀ path body,
     forwards validate_int request path body →
     call_timeout
       (outbound_call (TASK_SERVICE_URL cfg) path (req_method request) request body)
     = 30
     ∧ call_url
         (outbound_call (TASK_SERVICE_URL cfg) path (req_method request) request body)
       = TASK_SERVICE_URL cfg +:+ path
     ∧ app cfg validate_int network request
       = (match network (outbound_call (TASK_SERVICE_URL cfg) path
                           (req_method request) request body) with
          | Failed (ConnectError _) =>
              JSONResponse 503
                (Detail ("Service unavailable: " +:+ TASK_SERVICE_URL cfg))
          | Failed (TimeoutException _) =>
              JSONResponse 504
                (Detail ("Service timeout: " +:+ TASK_SERVICE_URL cfg))
          | Failed (OtherException message) =>
              JSONResponse 500 (Detail ("Gateway error: " +:+ message))
          | Responded backend =>
              {| status_code := backend_status_code backend;
                 content := Raw (backend_content backend);
                 headers := HttpxHeaders.to_dict (backend_headers backend);
                 media_type :=
                   HttpxHeaders.getitem (backend_headers backend) "content-type" |}
          end,
          [outbound_call (TASK_SERVICE_URL cfg) path (req_method request)
             request body]))
  ∧ (∀ response calls call,
       app cfg validate_int network request = (response, calls) →
       call ∈ calls → call_timeout call = 30 →
       calls = [call]
       ∧ (∃ path, call_url call = TASK_SERVICE_URL cfg +:+ path)
       ∧ match network call with
         | Failed (ConnectError _) =>
             response = JSONResponse 503
               (Detail ("Service unavailable: " +:+ TASK_SERVICE_URL cfg))
         | Failed (TimeoutException _) =>
             response = JSONResponse 504
               (Detail ("Service timeout: " +:+ TASK_SERVICE_URL cfg))
         | Failed (OtherException message) =>
             response = JSONResponse 500 (Detail ("Gateway error: " +:+ message))
         | Responded backend =>
             response =
             {| status_code := backend_status_code backend;
                content := Raw (backend_content backend);
                headers := HttpxHeaders.to_dict (backend_headers backend);
                media_type :=
                  HttpxHeaders.getitem (backend_headers backend) "content-type" |}
         end).
Proof.
  split.
  - intros path body Hf.
    pose proof (forwards_not_preflight _ _ _ _ Hf) as Hpre.
    split; [done|]. split; [done|].
    rewrite (app_forwards _ _ _ _ _ _ Hpre Hf). f_equal.
    unfold forward_request, bind, client_request. simpl.
    destruct (network _) as [backend|[]]; done.
  - intros response calls call Happ Hin Ht.
    destruct (app_forwarder_call _ _ _ _ _ _ _ Happ Hin Ht)
      as (path & body & Hf & Hpre & -> & Hcall).
    rewrite (app_forwards _ _ _ _ _ _ Hpre Hf) in Happ.
    injection Happ as <- _.
    split; [done|]. split; [exists path; by rewrite Hcall|].
    unfold forward_request, bind, client_request. simpl. rewrite <- Hcall.
    destruct (network call) as [backend|[]]; done.
Qed.

Lemma forwarder_failure_translation_witness :
  forwards decimal_int (get "/tasks") "/tasks" None
  ∧ app default_config decimal_int
        (always (Failed (ConnectError "All connection attempts failed")))
        (get "/tasks")
    = (JSONResponse 503 (Detail "Service unavailable: http://localhost:8003"),
       [outbound_call "http://localhost:8003" "/tasks" "GET" (get "/tasks") None])
  ∧ app default_config decimal_int
        (always (Failed (TimeoutException "timed out"))) (get "/tasks")
    = (JSONResponse 504 (Detail "Service timeout: http://localhost:8003"),
       [outbound_call "http://localhost:8003" "/tasks" "GET" (get "/tasks") None])
  ∧ app default_config decimal_int
        (always (Failed (OtherException "Illegal header value")))
        (get "/tasks")
    = (JSONResponse 500 (Detail "Gateway error: Illegal header value"),
       [outbound_call "http://localhost:8003" "/tasks" "GET" (get "/tasks") None])
  ∧ app default_config decimal_int (always (Responded two_cookies))
        (get "/tasks")
    = ({| status_code := 200; content := Raw [];
          headers := HttpxHeaders.to_dict (backend_headers two_cookies);
          media_type := None |},
       [outbound_call "http://localhost:8003" "/tasks" "GET" (get "/tasks") None]).
Proof.
  assert (Hf : forwards decimal_int (get "/tasks") "/tasks" None).
  { refine (forwards_tasks decimal_int (get "/tasks") _ _ _ _); reflexivity. }
  split; [exact Hf|]. split; [|split; [|split]].
  - exact (proj2 (proj2 (proj1 (forwarder_failure_translation default_config
                                  decimal_int
                                  (always (Failed (ConnectError
                                                     "All connection attempts failed")))
                                  (get "/tasks"))
                               "/tasks" None Hf))).
  - exact (proj2 (proj2 (proj1 (forwarder_failure_translation default_config
                                  decimal_int
                                  (always (Failed (TimeoutException "timed out")))
                                  (get "/tasks"))
                               "/tasks" None Hf))).
  - exact (proj2 (proj2 (proj1 (forwarder_failure_translation default_config
                                  decimal_int
                                  (always (Failed (OtherException
                                                     "Illegal header value")))
                                  (get "/tasks"))
                               "/tasks" None Hf))).
  - exact (proj2 (proj2 (proj1 (forwarder_failure_translation default_config
                                  decimal_int (always (Responded two_cookies))
                                  (get "/tasks"))
                               "/tasks" None Hf))).
Defined.

(** C2. A backend response that carries the same header name twice does not
    come back unchanged: [dict(response.headers)] leaves one entry for the
    name, with the values joined by a comma.  Here the backend sets two
    cookies, and the gateway answers with a single header. *)
Theorem forwarder_merges_repeated_response_headers :
  ∃ response,
    fst (app default_config decimal_int (always (Responded two_cookies))
           (get "/tasks")) = response
    ∧ status_code response = backend_status_code two_cookies
    ∧ content response = Raw (backend_content two_cookies)
    ∧ headers response = [("set-cookie", "a=1, b=2")]
    ∧ headers response ≠ backend_headers two_cookies.
Proof. eexists. repeat split; try reflexivity. vm_compute. discriminate. Qed.

(** ** Placeholder routes *)

(** C3. GET and POST on [/users] and on [/projects] are answered 501 with
    the detail "User service not implemented yet", respectively "Project
    service not implemented yet", and no outbound call is issued. *)
Theorem placeholder_routes_answer_501 cfg validate_int network request :
  req_method request ∈ ["GET"; "POST"] →
  (req_path request = "/users" →
   app cfg validate_int network request
   = (JSONResponse 501 (Detail "User service not implemented yet"), []))
  ∧ (req_path request = "/projects" →
     app cfg validate_int network request
     = (JSONResponse 501 (Detail "Project service not implemented yet"), [])).
Proof.
  intros Hm. assert (Hpre : is_preflight request = false).
  { apply is_preflight_method. intros Heq. rewrite Heq in Hm.
    by repeat (apply elem_of_cons in Hm as [?|Hm]; [done|]); apply elem_of_nil in Hm. }
  unfold app, router. rewrite Hpre.
  split; intros ->;
    repeat (apply elem_of_cons in Hm as [->|Hm]; [reflexivity|]);
    by apply elem_of_nil in Hm.
Qed.

Lemma placeholder_routes_answer_501_witness :
  req_method (get "/users") ∈ ["GET"; "POST"]
  ∧ app default_config decimal_int (always (Failed (ConnectError ""))) (get "/users")
    = (JSONResponse 501 (Detail "User service not implemented yet"), []).
Proof.
  assert (H : req_method (get "/users") ∈ ["GET"; "POST"]) by (by left).
  split; [exact H|].
  exact (proj1 (placeholder_routes_answer_501 default_config decimal_int
                  (always (Failed (ConnectError ""))) (get "/users") H) eq_refl).
Defined.

(** ** What the forwarder sends *)

(** C4. The outbound call does not preserve repeated query keys, nor
    repeated header lines: for [GET /tasks?tag=a&tag=b] the call keeps the
    method, but [dict(request.query_params)] holds only [tag=b], and
    [dict(request.headers)] only the first [accept] line. *)
Theorem forwarder_drops_repeated_query_keys cfg validate_int network :
  ∃ call,
    snd (app cfg validate_int network get_tasks_by_tags) = [call]
    ∧ call_method call = req_method get_tasks_by_tags
    ∧ call_params call = [("tag", "b")]
    ∧ call_params call ≠ req_query_params get_tasks_by_tags
    ∧ call_headers call = [("accept", "application/json")].
Proof.
  eexists. split.
  - unfold app, router. simpl. unfold tasks_route. simpl.
    rewrite forward_request_run. reflexivity.
  - repeat split; try reflexivity. vm_compute. discriminate.
Qed.

(** ** Requests the router does not hand to an endpoint *)

(** C5, as stated, fails: [DELETE /tasks] names a registered path with a
    method outside its allowed set, and the answer is 405 "Method Not
    Allowed", not 404. *)
Lemma method_mismatch_is_405 :
  known_path (req_path delete_tasks) = true
  ∧ method_allowed (req_method delete_tasks) (req_path delete_tasks) = false
  ∧ app default_config decimal_int (always (Responded two_cookies)) delete_tasks
    = (JSONResponse 405 (Detail "Method Not Allowed"), [])
  ∧ fst (app default_config decimal_int (always (Responded two_cookies)) delete_tasks)
    ≠ JSONResponse 404 (Detail "Resource not found").
Proof. repeat split; try reflexivity. vm_compute. discriminate. Qed.

(** C5, amended. For a request that is not a CORS preflight: when neither
    its path nor the path with the trailing slash toggled matches a
    registered pattern, the answer is 404 with the detail "Resource not
    found"; when the path matches a pattern but no matching pattern allows
    the method, the answer is 405 with the detail "Method Not Allowed"; in
    both cases no outbound call is attempted. *)
Theorem unrouted_requests_make_no_call cfg validate_int network request :
  is_preflight request = false →
  (known_path (req_path request) = false →
   known_path (redirect_path (req_path request)) = false →
   app cfg validate_int network request
   = (JSONResponse 404 (Detail "Resource not found"), []))
  ∧ (known_path (req_path request) = true →
     method_allowed (req_method request) (req_path request) = false →
     app cfg validate_int network request
     = (JSONResponse 405 (Detail "Method Not Allowed"), [])).
Proof.
  intros Hpre. unfold app, router. rewrite Hpre. split.
  - intros Hp Hr. by rewrite (resolve_unknown _ _ Hp Hr).
  - intros Hp Hm.
    destruct (resolve_disallowed _ _ Hp Hm) as [r ->]. done.
Qed.

Lemma unrouted_requests_make_no_call_witness :
  is_preflight (get "/teams") = false
  ∧ known_path (req_path (get "/teams")) = false
  ∧ known_path (redirect_path (req_path (get "/teams"))) = false
  ∧ app default_config decimal_int (always (Responded two_cookies)) (get "/teams")
    = (JSONResponse 404 (Detail "Resource not found"), []).
Proof.
  do 3 (split; [reflexivity|]).
  exact (proj1 (unrouted_requests_make_no_call default_config decimal_int
                  (always (Responded two_cookies)) (get "/teams") eq_refl)
               eq_refl eq_refl).
Defined.

(** ** Path parameters *)

Lemma span_segment_rest s seg rest :
  span_segment s = (seg, rest) → rest = "" ∨ ∃ r, rest = String "/" r.
Proof.
  revert seg rest. induction s as [|c s IH]; simpl; intros seg rest.
  - intros [= <- <-]. by left.
  - destruct (Ascii.eqb_spec c "/") as [->|Hc].
    + intros [= <- <-]. right. by eexists.
    + destruct (span_segment s) as [seg' rest'].
      intros [= <- <-]. by eapply IH.
Qed.

Arguments span_segment : simpl never.

(** The pattern [/tasks/{task_id}] matches the paths [/tasks/<segment>]
    with a non-empty segment free of [/], and captures the segment whole. *)
Lemma task_id_pattern path params :
  match_pieces [Lit "/tasks/"; Param "task_id"] path = Some params ↔
  ∃ segment, path = "/tasks/" +:+ segment ∧ segment ≠ ""
             ∧ has_slash segment = false ∧ params = [("task_id", segment)].
Proof.
  split.
  - cbn [match_pieces].
    destruct (strip_prefix "/tasks/" path) as [s|] eqn:Hp; [|done].
    apply strip_prefix_spec in Hp as ->.
    destruct (span_segment s) as [seg rest] eqn:Hs.
    destruct (String.eqb_spec seg ""); [done|].
    destruct (span_segment_rest _ _ _ Hs) as [->|[r ->]].
    + apply span_segment_spec in Hs as [-> Hs].
      intros [= <-]. exists seg. by rewrite append_empty_r.
    + simpl. destruct r; done.
  - intros (seg & -> & Hne & Hs & ->). simpl.
    change ("" +:+ seg) with seg. rewrite (span_segment_whole _ Hs).
    destruct (String.eqb_spec seg ""); done.
Qed.






(** ** The shape of the paths a pattern matches *)

Lemma at_end_spec s : at_end s = true → s = "" ∨ s = String newline "".
Proof.
  destruct s as [|c [|c' s]]; simpl; [by left| |done].
  intros ->%Ascii.eqb_eq. by right.
Qed.

Lemma literal_pattern l path params :
  match_pieces [Lit l] path = Some params →
  path = l ∨ path = l +:+ String newline "".
Proof.
  simpl. destruct (strip_prefix l path) as [s|] eqn:Hp; [|done].
  apply strip_prefix_spec in Hp as ->.
  destruct (at_end s) eqn:He; [|done]. intros _.
  apply at_end_spec in He as [-> | ->]; [left; apply append_empty_r|by right].
Qed.

Lemma append_assoc s t u : (s +:+ t) +:+ u = s +:+ t +:+ u.
Proof.
  induction s as [|c s IH]; [done|].
  change (String c ((s +:+ t) +:+ u) = String c (s +:+ t +:+ u)). by rewrite IH.
Qed.

Lemma task_status_pattern path params :
  match_pieces [Lit "/tasks/"; Param "task_id"; Lit "/status"] path = Some params →
  ∃ segment tail,
    path = "/tasks/" +:+ segment +:+ "/status" +:+ tail
    ∧ segment ≠ "" ∧ has_slash segment = false ∧ at_end tail = true
    ∧ params = [("task_id", segment)].
Proof.
  cbn [match_pieces].
  destruct (strip_prefix "/tasks/" path) as [s|] eqn:Hp; [|done].
  apply strip_prefix_spec in Hp as ->.
  destruct (span_segment s) as [seg rest] eqn:Hs.
  destruct (String.eqb_spec seg ""); [done|].
  destruct (strip_prefix "/status" rest) as [tail|] eqn:Hr; [|done].
  apply strip_prefix_spec in Hr as ->.
  destruct (at_end tail) eqn:He; [|done]. intros [= <-].
  apply span_segment_spec in Hs as [-> Hs]. by exists seg, tail.
Qed.

(** X7. No path matches two registered patterns: which route serves a path
    does not depend on the order in which the routes were registered. *)
Theorem registered_patterns_are_disjoint path r1 r2 :
  r1 ∈ routes → r2 ∈ routes →
  path_matches r1 path = true → path_matches r2 path = true →
  r1 = r2.
Proof.
  unfold path_matches. intros Hr1 Hr2 H1 H2.
  destruct (match_pieces (route_path r1) path) as [ps1|] eqn:E1; [|done].
  destruct (match_pieces (route_path r2) path) as [ps2|] eqn:E2; [|done].
  clear H1 H2. unfold routes in Hr1, Hr2.
  repeat (apply elem_of_cons in Hr1 as [->|Hr1]); [..|by apply elem_of_nil in Hr1];
    cbn [route_path] in E1.
  1-7,10-11:
    apply literal_pattern in E1 as [Heq|Heq]; subst path;
    (repeat (apply elem_of_cons in Hr2 as [->|Hr2]); [..|by apply elem_of_nil in Hr2]);
    first [reflexivity | by vm_compute in E2].
  - (* /tasks/{task_id} *)
    apply task_id_pattern in E1 as (seg & -> & Hne & Hs & _).
    destruct seg as [|c s]; [done|].
    pose proof (span_segment_whole _ Hs) as Hspan.
    repeat (apply elem_of_cons in Hr2 as [->|Hr2]); [..|by apply elem_of_nil in Hr2];
      first [ reflexivity
            | simpl in E2; change ("" +:+ String c s) with (String c s) in E2;
              rewrite ?Hspan in E2; simpl in E2; done ].
  - (* /tasks/{task_id}/status *)
    apply task_status_pattern in E1 as (seg & tail & -> & Hne & Hs & He & _).
    destruct seg as [|c s]; [done|].
    pose proof (span_segment_slash _ ("status" +:+ tail) Hs) as Hspan.
    repeat (apply elem_of_cons in Hr2 as [->|Hr2]); [..|by apply elem_of_nil in Hr2];
      first [ reflexivity
            | simpl in E2;
              change ("" +:+ String c s +:+ "/status" +:+ tail)
                with (String c s +:+ String "/" ("status" +:+ tail)) in E2;
              rewrite ?Hspan in E2; simpl in E2; done ].
Qed.

Lemma registered_patterns_are_disjoint_witness :
  task_by_id ∈ routes
  ∧ path_matches task_by_id "/tasks/status" = true
  ∧ task_by_id = task_by_id.
Proof.
  assert (Hin : task_by_id ∈ routes).
  { do 7 apply list_elem_of_further. apply list_elem_of_here. }
  split; [exact Hin|]. split; [reflexivity|].
  exact (registered_patterns_are_disjoint "/tasks/status" task_by_id task_by_id
           Hin Hin eq_refl eq_refl).
Defined.

(** ** The health report *)

(** C7. [GET /health] probes the task backend once, on the 5-second client;
    the backend is reported healthy exactly when the probe returns status
    200, unhealthy exactly when it returns another status, unreachable
    exactly when the probe raises; and the report says "gateway":
    "healthy" whatever the probe gives. *)
Theorem health_reports_probe_outcome cfg validate_int network request :
  req_method request = "GET" → req_path request = "/health" →
  ∃ report,
    app cfg validate_int network request
    = (JSONResponse 200 (Health report), [health_probe cfg])
    ∧ report_gateway report = "healthy"
    ∧ (report_services report !! "task-service" = Some "healthy" ↔
       ∃ response, network (health_probe cfg) = Responded response
                   ∧ backend_status_code response = 200)
    ∧ (report_services report !! "task-service" = Some "unhealthy" ↔
       ∃ response, network (health_probe cfg) = Responded response
                   ∧ backend_status_code response ≠ 200)
    ∧ (report_services report !! "task-service" = Some "unreachable" ↔
       ∃ e, network (health_probe cfg) = Failed e).
Proof.
  intros Hm Hp.
  assert (Hpre : is_preflight request = false).
  { apply is_preflight_method. by rewrite Hm. }
  unfold app, router. rewrite Hpre, Hm, Hp. simpl.
  unfold health, bind, client_get, client_request. simpl.
  fold (health_probe cfg).
  destruct (network (health_probe cfg)) as [response|e]; simpl.
  - eexists. split; [reflexivity|]. split; [reflexivity|]. simpl.
    rewrite lookup_insert_eq.
    destruct (Z.eqb_spec (backend_status_code response) 200) as [Hs|Hs].
    + repeat split; try done.
      * intros _. by exists response.
      * intros (r & [= <-] & Hr). done.
      * intros (e & He). done.
    + repeat split; try done.
      * intros (r & [= <-] & Hr). done.
      * intros _. by exists response.
      * intros (e & He). done.
  - eexists. split; [reflexivity|]. split; [reflexivity|]. simpl.
    rewrite lookup_insert_eq.
    repeat split; try done.
    + intros (r & Hr & _). done.
    + intros (r & Hr & _). done.
    + intros _. by exists e.
Qed.

Lemma health_reports_probe_outcome_witness :
  req_method (get "/health") = "GET" ∧ req_path (get "/health") = "/health"
  ∧ ∃ report,
      app default_config decimal_int
          (always (Failed (ConnectError "All connection attempts failed")))
          (get "/health")
      = (JSONResponse 200 (Health report), [health_probe default_config])
      ∧ report_gateway report = "healthy".
Proof.
  split; [reflexivity|]. split; [reflexivity|].
  destruct (health_reports_probe_outcome default_config decimal_int
              (always (Failed (ConnectError "All connection attempts failed")))
              (get "/health") eq_refl eq_refl) as (report & Happ & Hg & _).
  exists report. split; [exact Happ|exact Hg].
Defined.

(** C10. A response of the gateway that carries a health report comes with
    one outbound call, the probe of the task backend, and the services of
    the report are keyed by "task-service" and nothing else: the user and
    project backends are neither probed nor reported. *)
Theorem health_report_names_task_service_only
    cfg validate_int network request response calls report :
  app cfg validate_int network request = (response, calls) →
  content response = Health report →
  dom (report_services report) = {["task-service"]}
  ∧ calls = [health_probe cfg].
Proof.
  unfold app, router.
  destruct (is_preflight request).
  { intros [= <- <-]. unfold preflight_response.
    destruct (StarletteHeaders.getitem _ _); [destruct (existsb _ _)|]; done. }
  destruct (resolve _ _) as [r ps| | |]; simpl; try (intros [= <- <-]; done).
  destruct (route_endpoint r); simpl; try (intros [= <- <-]; done).
  - (* health *)
    unfold health, bind, client_get, client_request. simpl.
    fold (health_probe cfg).
    destruct (network (health_probe cfg)) as [backend|e]; simpl;
      intros [= <- <-] [= <-]; simpl;
      by rewrite dom_insert_L, dom_empty_L, union_empty_r_L.
  - (* tasks_route *)
    unfold tasks_route, forward_request, bind, client_request. simpl.
    destruct (network _) as [backend|[]]; simpl; intros [= <- <-]; done.
  - (* task_by_id_route *)
    unfold with_task_id.
    destruct (PyDict.get "task_id" ps) as [text|];
      [destruct (validate_int text)|]; simpl; try (intros [= <- <-]; done).
    unfold task_by_id_route, forward_request, bind, client_request. simpl.
    destruct (network _) as [backend|[]]; simpl; intros [= <- <-]; done.
  - (* task_status_route *)
    unfold with_task_id.
    destruct (PyDict.get "task_id" ps) as [text|];
      [destruct (validate_int text)|]; simpl; try (intros [= <- <-]; done).
    unfold task_status_route, forward_request, bind, client_request. simpl.
    destruct (network _) as [backend|[]]; simpl; intros [= <- <-]; done.
Qed.

Lemma health_report_names_task_service_only_witness :
  ∃ report,
    app default_config decimal_int (always (Responded two_cookies)) (get "/health")
    = (JSONResponse 200 (Health report), [health_probe default_config])
    ∧ dom (report_services report) = {["task-service"]}.
Proof.
  eexists. split; [reflexivity|].
  exact (proj1 (health_report_names_task_service_only default_config decimal_int
                  (always (Responded two_cookies)) (get "/health") _ _ _
                  eq_refl eq_refl)).
Defined.

(** ** Request bodies *)

Arguments match_pieces : simpl never.

(** The body that an endpoint hands to the forwarder, by pattern and
    method. *)
Lemma forwards_body validate_int request path body :
  forwards validate_int request path body →
  body = if carries_body (req_method request) (req_path request)
         then Some (req_body request) else None.
Proof.
  intros Hf. unfold carries_body, path_is.
  destruct Hf as [r ps Hr He|r ps text id Hr He _ _|r ps text id Hr He _ _];
    apply resolve_resolved in Hr as (Hin' & Hmatch & Hallow);
    unfold routes in Hin';
    repeat (apply elem_of_cons in Hin' as [->|Hin']; [try discriminate He|]);
    try (by apply elem_of_nil in Hin');
    simpl in Hmatch; unfold allows in Hallow; simpl in Hallow;
    repeat (match type of Hallow with
            | context [String.eqb (req_method request) ?m] =>
                destruct (String.eqb_spec (req_method request) m) as [->|?]
            end; simpl in Hallow);
    try discriminate Hallow;
    simpl; rewrite ?Hmatch, ?andb_false_r, ?orb_true_r; simpl; reflexivity.
Qed.

Lemma no_body_for_get_and_delete method path :
  method ∈ ["GET"; "DELETE"] → carries_body method path = false.
Proof.
  intros Hm. unfold carries_body.
  repeat (apply elem_of_cons in Hm as [->|Hm]);
    [..|by apply elem_of_nil in Hm]; simpl; by rewrite ?andb_false_r.
Qed.

(** C9. A request that reaches the forwarder issues one call, on the
    30-second client, and that call carries the body of the request exactly
    for POST on [/tasks], PUT and PATCH on [/tasks/{id}], and PATCH on
    [/tasks/{id}/status]; for any other forwarded request, GET and DELETE
    among them, the call has no content, whatever body the client sent.
    Conversely every call on the 30-second client has that content. *)
Theorem forwarder_body_by_method cfg validate_int network request :
  (∀ path body,
     forwards validate_int request path body →
     ∃ response call,
       app cfg validate_int network request = (response, [call])
       ∧ call_timeout call = 30
       ∧ call_method call = req_method request
       ∧ call_url call = TASK_SERVICE_URL cfg +:+ path
       ∧ call_content call
         = (if carries_body (req_method request) (req_path request)
            then Some (req_body request) else None)
       ∧ (req_method request ∈ ["GET"; "DELETE"] → call_content call = None))
  ∧ (∀ response calls call,
       app cfg validate_int network request = (response, calls) →
       call ∈ calls → call_timeout call = 30 →
       call_content call
       = (if carries_body (req_method request) (req_path request)
          then Some (req_body request) else None)
       ∧ (req_method request ∈ ["GET"; "DELETE"] → call_content call = None)).
Proof.
  split.
  - intros path body Hf.
    pose proof (forwards_not_preflight _ _ _ _ Hf) as Hpre.
    pose proof (forwards_body _ _ _ _ Hf) as Hbody.
    eexists _, _. split; [exact (app_forwards _ _ _ _ _ _ Hpre Hf)|].
    cbn [call_timeout call_method call_url call_content outbound_call].
    split; [done|]. split; [done|]. split; [done|]. split; [exact Hbody|].
    intros Hm. by rewrite Hbody, (no_body_for_get_and_delete _ _ Hm).
  - intros response calls call Happ Hin Ht.
    destruct (app_forwarder_call _ _ _ _ _ _ _ Happ Hin Ht)
      as (path & body & Hf & _ & _ & ->).
    pose proof (forwards_body _ _ _ _ Hf) as Hbody.
    cbn [call_content outbound_call].
    split; [exact Hbody|].
    intros Hm. by rewrite Hbody, (no_body_for_get_and_delete _ _ Hm).
Qed.

Lemma forwarder_body_by_method_witness :
  (forwards decimal_int post_task "/tasks" (Some (req_body post_task))
   ∧ ∃ response call,
       app default_config decimal_int
           (always (Failed (TimeoutException "timed out"))) post_task
       = (response, [call])
       ∧ call_timeout call = 30
       ∧ call_method call = "POST"
       ∧ call_url call = "http://localhost:8003/tasks"
       ∧ call_content call = Some (req_body post_task)
       ∧ ("POST" ∈ ["GET"; "DELETE"] → call_content call = None))
  ∧ (forwards decimal_int put_task "/tasks/5" (Some (req_body put_task))
     ∧ ∃ response call,
         app default_config decimal_int
             (always (Failed (TimeoutException "timed out"))) put_task
         = (response, [call])
         ∧ call_timeout call = 30
         ∧ call_method call = "PUT"
         ∧ call_url call = "http://localhost:8003/tasks/5"
         ∧ call_content call = Some (req_body put_task)
         ∧ ("PUT" ∈ ["GET"; "DELETE"] → call_content call = None))
  ∧ (forwards decimal_int patch_task_status "/tasks/5/status"
       (Some (req_body patch_task_status))
     ∧ ∃ response call,
         app default_config decimal_int
             (always (Failed (TimeoutException "timed out"))) patch_task_status
         = (response, [call])
         ∧ call_timeout call = 30
         ∧ call_method call = "PATCH"
         ∧ call_url call = "http://localhost:8003/tasks/5/status"
         ∧ call_content call = Some (req_body patch_task_status)
         ∧ ("PATCH" ∈ ["GET"; "DELETE"] → call_content call = None))
  ∧ (forwards decimal_int delete_task_with_body "/tasks/5" None
     ∧ ∃ response call,
         app default_config decimal_int
             (always (Failed (TimeoutException "timed out")))
             delete_task_with_body
         = (response, [call])
         ∧ call_timeout call = 30
         ∧ call_method call = "DELETE"
         ∧ call_url call = "http://localhost:8003/tasks/5"
         ∧ call_content call = None
         ∧ ("DELETE" ∈ ["GET"; "DELETE"] → call_content call = None)).
Proof.
  assert (H1 : forwards decimal_int post_task "/tasks" (Some (req_body post_task))).
  { refine (forwards_tasks decimal_int post_task _ _ _ _); reflexivity. }
  assert (H2 : forwards decimal_int put_task "/tasks/5" (Some (req_body put_task))).
  { refine (forwards_task_by_id decimal_int put_task _ _ _ 5 _ _ _ _);
      reflexivity. }
  assert (H3 : forwards decimal_int patch_task_status "/tasks/5/status"
                 (Some (req_body patch_task_status))).
  { refine (forwards_task_status decimal_int patch_task_status _ _ _ 5 _ _ _ _);
      reflexivity. }
  assert (H4 : forwards decimal_int delete_task_with_body "/tasks/5" None).
  { refine (forwards_task_by_id decimal_int delete_task_with_body _ _ _ 5 _ _ _ _);
      reflexivity. }
  split; [split; [exact H1|]|split; [split; [exact H2|]|split; [split; [exact H3|]|split; [exact H4|]]]].
  - exact (proj1 (forwarder_body_by_method default_config decimal_int
                    (always (Failed (TimeoutException "timed out"))) post_task)
                 _ _ H1).
  - exact (proj1 (forwarder_body_by_method default_config decimal_int
                    (always (Failed (TimeoutException "timed out"))) put_task)
                 _ _ H2).
  - exact (proj1 (forwarder_body_by_method default_config decimal_int
                    (always (Failed (TimeoutException "timed out")))
                    patch_task_status)
                 _ _ H3).
  - exact (proj1 (forwarder_body_by_method default_config decimal_int
                    (always (Failed (TimeoutException "timed out")))
                    delete_task_with_body)
                 _ _ H4).
Defined.

(** ** Dictionaries: lookups and keys *)

Lemma get_set {V} k (v : V) d k' :
  PyDict.get k' (PyDict.set k v d) = if String.eqb k k' then Some v else PyDict.get k' d.
Proof.
  induction d as [|[k0 v0] d IH]; simpl; [done|].
  destruct (String.eqb_spec k0 k) as [->|Hne]; simpl.
  - by destruct (String.eqb_spec k k').
  - rewrite IH. destruct (String.eqb_spec k0 k') as [->|]; [|done].
    by destruct (String.eqb_spec k k').
Qed.

Lemma get_None {V} k (d : PyDict.t V) :
  PyDict.get k d = None ↔ k ∉ PyDict.keys d.
Proof.
  induction d as [|[k0 v0] d IH]; simpl.
  - split; [intros _; apply not_elem_of_nil|done].
  - rewrite not_elem_of_cons. destruct (String.eqb_spec k0 k) as [->|Hne].
    + split; [done|]. intros [? _]. done.
    + rewrite IH. split; [intros ?; split; [congruence|done]|tauto].
Qed.

Lemma keys_set {V} k (v : V) d :
  PyDict.keys (PyDict.set k v d)
  = if bool_decide (k ∈ PyDict.keys d) then PyDict.keys d else PyDict.keys d ++ [k].
Proof.
  induction d as [|[k0 v0] d IH]; simpl; [done|].
  destruct (String.eqb_spec k0 k) as [->|Hne]; simpl.
  - rewrite bool_decide_eq_true_2; [done|by left].
  - rewrite IH. destruct (bool_decide_reflect (k ∈ PyDict.keys d)) as [Hin|Hin].
    + rewrite bool_decide_eq_true_2; [done|by right].
    + rewrite bool_decide_eq_false_2; [done|].
      rewrite not_elem_of_cons. split; [congruence|done].
Qed.

Lemma set_NoDup {V} k (v : V) d :
  NoDup (PyDict.keys d) → NoDup (PyDict.keys (PyDict.set k v d)).
Proof.
  intros Hnd. rewrite keys_set.
  destruct (bool_decide_reflect (k ∈ PyDict.keys d)) as [Hin|Hin]; [done|].
  apply NoDup_app. split; [done|]. split; [|apply NoDup_singleton].
  intros x Hx ->%list_elem_of_singleton. done.
Qed.

Lemma of_mapping_NoDup {V} (getitem : string → option V) ks :
  NoDup (PyDict.keys (PyDict.of_mapping ks getitem)).
Proof.
  unfold PyDict.of_mapping.
  assert (H : ∀ acc : PyDict.t V, NoDup (PyDict.keys acc) →
              NoDup (PyDict.keys
                       (fold_left (fun d k => match getitem k with
                                              | Some v => PyDict.set k v d
                                              | None => d
                                              end) ks acc))).
  { induction ks as [|k ks IH]; intros acc Hacc; simpl; [done|].
    apply IH. destruct (getitem k); [by apply set_NoDup|done]. }
  apply H. apply NoDup_nil_2.
Qed.

Lemma of_items_NoDup {V} (l : list (string * V)) :
  NoDup (PyDict.keys (PyDict.of_items l)).
Proof.
  unfold PyDict.of_items.
  assert (H : ∀ acc : PyDict.t V, NoDup (PyDict.keys acc) →
              NoDup (PyDict.keys
                       (fold_left (fun d kv => PyDict.set (fst kv) (snd kv) d) l acc))).
  { induction l as [|kv l IH]; intros acc Hacc; simpl; [done|].
    apply IH. by apply set_NoDup. }
  apply H. apply NoDup_nil_2.
Qed.

Lemma get_of_mapping {V} (getitem : string → option V) ks k :
  PyDict.get k (PyDict.of_mapping ks getitem)
  = if bool_decide (k ∈ ks) then getitem k else None.
Proof.
  unfold PyDict.of_mapping.
  assert (H : ∀ acc : PyDict.t V,
             PyDict.get k (fold_left (fun d k => match getitem k with
                                                 | Some v => PyDict.set k v d
                                                 | None => d
                                                 end) ks acc)
             = match (if bool_decide (k ∈ ks) then getitem k else None) with
               | Some v => Some v
               | None => PyDict.get k acc
               end).
  { induction ks as [|k0 ks IH]; intros acc; simpl; [done|].
    rewrite IH.
    destruct (bool_decide_reflect (k ∈ ks)) as [Hin|Hin].
    - rewrite bool_decide_eq_true_2 by (by right).
      destruct (getitem k) eqn:Hk; [done|].
      destruct (getitem k0) eqn:Hk0; [|done].
      rewrite get_set. destruct (String.eqb_spec k0 k) as [->|]; [congruence|done].
    - destruct (decide (k = k0)) as [->|Hne].
      + rewrite bool_decide_eq_true_2 by (by left).
        destruct (getitem k0) eqn:Hk0; [|done].
        by rewrite get_set, String.eqb_refl.
      + rewrite bool_decide_eq_false_2
          by (rewrite not_elem_of_cons; done).
        destruct (getitem k0) eqn:Hk0; [|done].
        rewrite get_set. by destruct (String.eqb_spec k0 k) as [->|]. }
  rewrite H. simpl. by destruct (if bool_decide (k ∈ ks) then getitem k else None).
Qed.

Lemma of_items_snoc {V} (l : list (string * V)) k v :
  PyDict.of_items (l ++ [(k, v)]) = PyDict.set k v (PyDict.of_items l).
Proof. unfold PyDict.of_items. by rewrite fold_left_app. Qed.

Lemma get_of_items (l : items) k :
  PyDict.get k (PyDict.of_items l) = StarletteHeaders.getitem (rev l) k.
Proof.
  induction l as [|[k0 v0] l IH] using rev_ind; [done|].
  rewrite of_items_snoc, get_set, rev_unit. simpl. by rewrite IH.
Qed.

Lemma starlette_getitem_None h k :
  StarletteHeaders.getitem h k = None ↔ k ∉ map fst h.
Proof.
  induction h as [|[k0 v0] h IH]; simpl.
  - split; [intros _; apply not_elem_of_nil|done].
  - rewrite not_elem_of_cons. destruct (String.eqb_spec k0 k) as [->|Hne].
    + split; [done|]. intros [? _]. done.
    + rewrite IH. split; [intros ?; split; [congruence|done]|tauto].
Qed.

Lemma pop_NoDup {V} k (d : PyDict.t V) :
  NoDup (PyDict.keys d) → NoDup (PyDict.keys (PyDict.pop k d)).
Proof.
  induction d as [|[k0 v0] d IH]; simpl; [done|].
  intros [Hk Hnd]%NoDup_cons. destruct (String.eqb_spec k0 k); [done|].
  simpl. apply NoDup_cons. split; [|by apply IH].
  intros Hin. apply Hk. clear -Hin.
  induction d as [|[k1 v1] d IH]; simpl in *; [done|].
  destruct (String.eqb k1 k); [by right|].
  simpl in Hin. apply elem_of_cons in Hin as [->|Hin]; [by left|right; by apply IH].
Qed.

Lemma get_pop {V} k (d : PyDict.t V) k' :
  NoDup (PyDict.keys d) →
  PyDict.get k' (PyDict.pop k d) = if String.eqb k k' then None else PyDict.get k' d.
Proof.
  induction d as [|[k0 v0] d IH]; simpl; intros Hnd.
  - by destruct (String.eqb k k').
  - apply NoDup_cons in Hnd as [Hk Hnd].
    destruct (String.eqb_spec k0 k) as [->|Hne]; simpl.
    + destruct (String.eqb_spec k k') as [Heq|]; [|done]. subst k'. by apply get_None.
    + rewrite IH by done. destruct (String.eqb_spec k0 k') as [->|]; [|done].
      by destruct (String.eqb_spec k k').
Qed.

(** ** The outbound calls of a request *)

(** A request issues no call, or the health probe, or the one call of
    [forward_request]. *)
Lemma app_calls cfg validate_int network request :
  snd (app cfg validate_int network request) = []
  ∨ snd (app cfg validate_int network request) = [health_probe cfg]
  ∨ ∃ path body,
      forwards validate_int request path body
      ∧ snd (app cfg validate_int network request)
        = [outbound_call (TASK_SERVICE_URL cfg) path (req_method request) request body].
Proof.
  unfold app, router.
  destruct (is_preflight request) eqn:Hpre; [by left|].
  destruct (resolve _ _) as [r ps| | |] eqn:Hr; simpl; try (by left).
  destruct (route_endpoint r) eqn:He; simpl; try (by left).
  - right. left. unfold health, bind, client_get, client_request. simpl.
    fold (health_probe cfg). by destruct (network (health_probe cfg)).
  - right. right. unfold tasks_route. rewrite forward_request_run. simpl.
    eexists _, _. split; [by eapply forwards_tasks|done].
  - unfold with_task_id.
    destruct (PyDict.get "task_id" ps) as [text|] eqn:Hg;
      [destruct (validate_int text) as [id|] eqn:Hv|]; simpl; try (by left).
    right. right. unfold task_by_id_route. rewrite forward_request_run. simpl.
    eexists _, _. split; [by eapply forwards_task_by_id|done].
  - unfold with_task_id.
    destruct (PyDict.get "task_id" ps) as [text|] eqn:Hg;
      [destruct (validate_int text) as [id|] eqn:Hv|]; simpl; try (by left).
    right. right. unfold task_status_route. rewrite forward_request_run. simpl.
    eexists _, _. split; [by eapply forwards_task_status|done].
Qed.

(** X1. Whatever the request, the gateway issues at most one outbound call
    for it (nothing is retried), and the URL of that call starts with the
    configured base URL of the task service: the user and project
    backends are never called. *)
Theorem at_most_one_call_to_the_task_service cfg validate_int network request :
  (length (snd (app cfg validate_int network request)) ≤ 1)%nat
  ∧ Forall (fun call => ∃ path, call_url call = TASK_SERVICE_URL cfg +:+ path)
           (snd (app cfg validate_int network request)).
Proof.
  destruct (app_calls cfg validate_int network request)
    as [->|[->|(path & body & _ & ->)]]; simpl.
  - split; [lia|constructor].
  - split; [lia|]. repeat constructor. by exists "/health".
  - split; [lia|]. repeat constructor. by exists path.
Qed.

(** X2. The call of the forwarder keeps the method of the request, and
    has one of three shapes: [/tasks] for GET or POST on the path
    [/tasks]; [/tasks/<n>] for GET, PUT, PATCH or DELETE on
    [/tasks/<segment>], where the validation read the segment as the
    integer [n]; [/tasks/<n>/status] for PATCH on
    [/tasks/<segment>/status]. *)
Theorem forwarder_call_shapes
    cfg validate_int network request response calls call :
  app cfg validate_int network request = (response, calls) →
  call ∈ calls → call_timeout call = 30 →
  call_method call = req_method request
  ∧ ((call_url call = TASK_SERVICE_URL cfg +:+ "/tasks"
      ∧ req_method request ∈ ["GET"; "POST"]
      ∧ ∃ tail, req_path request = "/tasks" +:+ tail ∧ at_end tail = true)
     ∨ (∃ segment n,
          call_url call = TASK_SERVICE_URL cfg +:+ "/tasks/" +:+ str_of_int n
          ∧ req_method request ∈ ["GET"; "PUT"; "PATCH"; "DELETE"]
          ∧ req_path request = "/tasks/" +:+ segment
          ∧ validate_int segment = Some n)
     ∨ (∃ segment tail n,
          call_url call
          = TASK_SERVICE_URL cfg +:+ "/tasks/" +:+ str_of_int n +:+ "/status"
          ∧ req_method request = "PATCH"
          ∧ req_path request = "/tasks/" +:+ segment +:+ "/status" +:+ tail
          ∧ at_end tail = true
          ∧ validate_int segment = Some n)).
Proof.
  intros Happ Hin Ht.
  destruct (app_forwarder_call _ _ _ _ _ _ _ Happ Hin Ht)
    as (path & body & Hf & _ & _ & ->).
  split; [done|]. simpl.
  destruct Hf as [r ps Hr He|r ps text id Hr He Hg Hv|r ps text id Hr He Hg Hv];
    apply resolve_resolved in Hr as (Hin' & Hmatch & Hallow);
    unfold routes in Hin';
    repeat (apply elem_of_cons in Hin' as [->|Hin']; [try discriminate He|]);
    try (by apply elem_of_nil in Hin');
    cbn [route_path] in Hmatch; unfold allows in Hallow; cbn [route_methods] in Hallow.
  - left. split; [done|]. split.
    + simpl in Hallow.
      repeat (match type of Hallow with
              | context [String.eqb (req_method request) ?m] =>
                  destruct (String.eqb_spec (req_method request) m) as [->|?]
              end; simpl in Hallow);
        try discriminate Hallow;
        repeat first [apply list_elem_of_here | apply list_elem_of_further].
    + apply literal_pattern in Hmatch as [Hp|Hp]; rewrite Hp.
      * by exists "".
      * by exists (String newline "").
  - right. left.
    apply task_id_pattern in Hmatch as (seg & Hpath & _ & _ & ->).
    simpl in Hg. injection Hg as <-.
    exists seg, id. split; [done|]. split; [|done].
    simpl in Hallow.
    repeat (match type of Hallow with
            | context [String.eqb (req_method request) ?m] =>
                destruct (String.eqb_spec (req_method request) m) as [->|?]
            end; simpl in Hallow);
      try discriminate Hallow;
      repeat first [apply list_elem_of_here | apply list_elem_of_further].
  - right. right.
    apply task_status_pattern in Hmatch as (seg & tail & Hpath & _ & _ & He' & ->).
    simpl in Hg. injection Hg as <-.
    exists seg, tail, id. split; [done|]. split; [|done].
    simpl in Hallow.
    by destruct (String.eqb_spec (req_method request) "PATCH").
Qed.

Lemma forwarder_call_shapes_witness :
  app default_config decimal_int (always (Failed (TimeoutException "timed out")))
      post_task
  = (JSONResponse 504 (Detail "Service timeout: http://localhost:8003"),
     [post_task_call])
  ∧ post_task_call ∈ [post_task_call]
  ∧ call_timeout post_task_call = 30
  ∧ call_method post_task_call = req_method post_task.
Proof.
  assert (Hin : post_task_call ∈ [post_task_call]) by (by left).
  split; [reflexivity|]. split; [exact Hin|]. split; [reflexivity|].
  exact (proj1 (forwarder_call_shapes default_config decimal_int
                  (always (Failed (TimeoutException "timed out"))) post_task
                  _ _ post_task_call eq_refl Hin eq_refl)).
Defined.

(** ** What the dictionaries of a forwarded call hold *)

Lemma ascii_lower_idempotent c : ascii_lower (ascii_lower c) = ascii_lower c.
Proof. destruct c as [[] [] [] [] [] [] [] []]; reflexivity. Qed.

Lemma lower_idempotent s : lower (lower s) = lower s.
Proof.
  induction s as [|c s IH]; simpl; [done|].
  by rewrite ascii_lower_idempotent, IH.
Qed.

Lemma query_params_to_dict q : QueryParams.to_dict q = PyDict.of_items q.
Proof.
  unfold QueryParams.to_dict, QueryParams.keys, QueryParams.getitem,
    QueryParams._dict, PyDict.of_mapping, PyDict.keys.
  pose proof (of_items_NoDup q) as Hnd.
  rewrite of_mapping_distinct; [done|done|].
  intros k v. by apply get_distinct.
Qed.

(** X3. The headers of a forwarded call hold no name twice; [host] is not
    among them, and every other name of the request is there with the
    value of its first header line. *)
Theorem forwarded_headers_keep_first_value
    cfg validate_int network request response calls call :
  app cfg validate_int network request = (response, calls) →
  call ∈ calls → call_timeout call = 30 →
  NoDup (PyDict.keys (call_headers call))
  ∧ ∀ name,
      PyDict.get name (call_headers call)
      = if String.eqb "host" name then None
        else StarletteHeaders.getitem (req_headers request) name.
Proof.
  intros Happ Hin Ht.
  destruct (app_forwarder_call _ _ _ _ _ _ _ Happ Hin Ht)
    as (path & body & _ & _ & _ & ->). cbn [call_headers outbound_call].
  pose proof (of_mapping_NoDup (StarletteHeaders.getitem (req_headers request))
                (StarletteHeaders.keys (req_headers request))) as Hnd.
  split; [by apply pop_NoDup|].
  intros name. unfold StarletteHeaders.to_dict in *. rewrite (get_pop _ _ _ Hnd).
  destruct (String.eqb "host" name); [done|].
  rewrite get_of_mapping. unfold StarletteHeaders.keys.
  destruct (bool_decide_reflect (name ∈ map fst (req_headers request))); [done|].
  symmetry. by apply starlette_getitem_None.
Qed.

Lemma forwarded_headers_keep_first_value_witness :
  snd (app default_config decimal_int (always (Responded two_cookies))
         get_tasks_by_tags)
  = [outbound_call "http://localhost:8003" "/tasks" "GET" get_tasks_by_tags None]
  ∧ PyDict.get "accept"
      (call_headers
         (outbound_call "http://localhost:8003" "/tasks" "GET" get_tasks_by_tags None))
    = Some "application/json".
Proof.
  split; [reflexivity|].
  refine (proj2 (forwarded_headers_keep_first_value default_config decimal_int
                   (always (Responded two_cookies)) get_tasks_by_tags _ _
                   (outbound_call "http://localhost:8003" "/tasks" "GET"
                      get_tasks_by_tags None) eq_refl _ eq_refl) "accept").
  apply list_elem_of_here.
Defined.

(** X4. The query parameters of a forwarded call hold no key twice, and
    every key of the request is there with the value of its last
    occurrence in the query string. *)
Theorem forwarded_params_keep_last_value
    cfg validate_int network request response calls call :
  app cfg validate_int network request = (response, calls) →
  call ∈ calls → call_timeout call = 30 →
  NoDup (PyDict.keys (call_params call))
  ∧ ∀ key, PyDict.get key (call_params call)
           = last_value (req_query_params request) key.
Proof.
  intros Happ Hin Ht.
  destruct (app_forwarder_call _ _ _ _ _ _ _ Happ Hin Ht)
    as (path & body & _ & _ & _ & ->). cbn [call_params outbound_call].
  rewrite query_params_to_dict. split; [apply of_items_NoDup|].
  intros key. apply get_of_items.
Qed.

Lemma forwarded_params_keep_last_value_witness :
  snd (app default_config decimal_int (always (Responded two_cookies))
         get_tasks_by_tags)
  = [outbound_call "http://localhost:8003" "/tasks" "GET" get_tasks_by_tags None]
  ∧ PyDict.get "tag"
      (call_params
         (outbound_call "http://localhost:8003" "/tasks" "GET" get_tasks_by_tags None))
    = Some "b".
Proof.
  split; [reflexivity|].
  refine (proj2 (forwarded_params_keep_last_value default_config decimal_int
                   (always (Responded two_cookies)) get_tasks_by_tags _ _
                   (outbound_call "http://localhost:8003" "/tasks" "GET"
                      get_tasks_by_tags None) eq_refl _ eq_refl) "tag").
  apply list_elem_of_here.
Defined.

(** ** What the headers of a forwarded response hold *)

Lemma app_forwarded_response
    cfg validate_int network request response calls call backend :
  app cfg validate_int network request = (response, calls) →
  call ∈ calls → call_timeout call = 30 →
  network call = Responded backend →
  response
  = {| status_code := backend_status_code backend;
       content := Raw (backend_content backend);
       headers := HttpxHeaders.to_dict (backend_headers backend);
       media_type := HttpxHeaders.getitem (backend_headers backend) "content-type" |}.
Proof.
  intros Happ Hin Ht Hnet.
  destruct (app_forwarder_call _ _ _ _ _ _ _ Happ Hin Ht)
    as (path & body & Hf & Hpre & -> & Hcall).
  rewrite (app_forwards _ _ _ _ _ _ Hpre Hf) in Happ.
  injection Happ as <- _.
  unfold forward_request, bind, client_request. simpl.
  by rewrite <- Hcall, Hnet.
Qed.

Lemma keys_of_items {V} (l : list (string * V)) k :
  k ∈ PyDict.keys (PyDict.of_items l) ↔ k ∈ map fst l.
Proof.
  revert k. induction l as [|[k0 v0] l IH] using rev_ind; intros k; [done|].
  rewrite of_items_snoc, keys_set, map_app. simpl.
  destruct (bool_decide_reflect (k0 ∈ PyDict.keys (PyDict.of_items l))) as [Hin|Hin].
  - rewrite IH, elem_of_app, list_elem_of_singleton.
    split; [by left|]. intros [?| ->]; [done|]. by apply IH.
  - by rewrite !elem_of_app, IH.
Qed.

Lemma httpx_keys_spec h k :
  k ∈ HttpxHeaders.keys h ↔ ∃ kv, kv ∈ h ∧ lower (fst kv) = k.
Proof.
  unfold HttpxHeaders.keys. rewrite keys_of_items, map_map. simpl.
  rewrite list_elem_of_fmap.
  split; intros (kv & ? & ?); exists kv; done.
Qed.

Lemma httpx_values_nil h k :
  HttpxHeaders.values h k = [] ↔ ¬ ∃ kv, kv ∈ h ∧ lower (fst kv) = lower k.
Proof.
  unfold HttpxHeaders.values. induction h as [|[k0 v0] h IH].
  - split; [|done]. intros _ (kv & Hin & _). by apply elem_of_nil in Hin.
  - destruct (String.eqb_spec (lower k0) (lower k)) as [Heq|Hne].
    + rewrite filter_cons_True by (simpl; by apply String.eqb_eq).
      split; [done|]. intros Hno. destruct Hno. exists (k0, v0). split; [by left|done].
    + rewrite filter_cons_False by (simpl; by rewrite String.eqb_eq).
      rewrite IH. split; intros Hno (kv & Hin & Hkv); apply Hno.
      * apply elem_of_cons in Hin as [->|Hin]; [done|]. by exists kv.
      * exists kv. split; [by right|done].
Qed.

(** X5. The headers of a forwarded response hold no name twice; they are
    keyed by lower-case names, and each name comes with the values of all
    the backend's header lines of that name, whatever their case, joined
    by a comma and a space, in the order of the lines. *)
Theorem response_headers_join_repeated_names
    cfg validate_int network request response calls call backend :
  app cfg validate_int network request = (response, calls) →
  call ∈ calls → call_timeout call = 30 →
  network call = Responded backend →
  NoDup (PyDict.keys (headers response))
  ∧ ∀ name,
      PyDict.get name (headers response)
      = if String.eqb (lower name) name
        then match HttpxHeaders.values (backend_headers backend) name with
             | [] => None
             | values => Some (join ", " values)
             end
        else None.
Proof.
  intros Happ Hin Ht Hnet.
  rewrite (app_forwarded_response _ _ _ _ _ _ _ _ Happ Hin Ht Hnet). simpl.
  unfold HttpxHeaders.to_dict. split; [apply of_mapping_NoDup|].
  intros name. rewrite get_of_mapping.
  fold (HttpxHeaders.getitem (backend_headers backend) name).
  destruct (String.eqb_spec (lower name) name) as [Hlow|Hlow].
  - destruct (bool_decide_reflect (name ∈ HttpxHeaders.keys (backend_headers backend)))
      as [Hk|Hk]; [done|].
    unfold HttpxHeaders.getitem.
    replace (HttpxHeaders.values (backend_headers backend) name) with (@nil string);
      [done|].
    symmetry. apply httpx_values_nil. intros (kv & Hkv & Heq).
    apply Hk, httpx_keys_spec. exists kv. split; [done|]. by rewrite Heq.
  - rewrite bool_decide_eq_false_2; [done|].
    intros (kv & _ & Heq)%httpx_keys_spec. apply Hlow.
    by rewrite <- Heq, lower_idempotent.
Qed.

Lemma response_headers_join_repeated_names_witness :
  app default_config decimal_int (always (Responded two_cookies)) (get "/tasks")
  = ({| status_code := 200; content := Raw [];
        headers := [("set-cookie", "a=1, b=2")]; media_type := None |},
     [outbound_call "http://localhost:8003" "/tasks" "GET" (get "/tasks") None])
  ∧ PyDict.get "set-cookie" [("set-cookie", "a=1, b=2")] = Some "a=1, b=2".
Proof.
  split; [reflexivity|].
  refine (proj2 (response_headers_join_repeated_names default_config decimal_int
                   (always (Responded two_cookies)) (get "/tasks") _ _
                   (outbound_call "http://localhost:8003" "/tasks" "GET"
                      (get "/tasks") None) two_cookies eq_refl _ eq_refl eq_refl)
                "set-cookie").
  apply list_elem_of_here.
Defined.

(** ** The gateway information *)

(** X6. [GET /] answers 200 without an outbound call and lists the
    configured base URLs under "tasks", "users" and "projects"; the URL it
    lists under "tasks" is the one every outbound call of the gateway, for
    any request, starts with. *)
Theorem root_lists_the_base_url_in_use cfg validate_int network request :
  req_method request = "GET" → req_path request = "/" →
  ∃ services,
    app cfg validate_int network request
    = (JSONResponse 200
         (GatewayInfo "API Gateway" "1.0.0" "microservices" services), [])
    ∧ PyDict.get "tasks" services = Some (TASK_SERVICE_URL cfg)
    ∧ PyDict.get "users" services = Some (USER_SERVICE_URL cfg)
    ∧ PyDict.get "projects" services = Some (PROJECT_SERVICE_URL cfg)
    ∧ ∀ other call,
        call ∈ snd (app cfg validate_int network other) →
        ∃ base path, PyDict.get "tasks" services = Some base
                     ∧ call_url call = base +:+ path.
Proof.
  intros Hm Hp.
  assert (Hpre : is_preflight request = false).
  { apply is_preflight_method. by rewrite Hm. }
  unfold app at 1, router. rewrite Hpre, Hm, Hp. simpl.
  eexists. split; [reflexivity|]. do 3 (split; [reflexivity|]).
  intros other call Hin. exists (TASK_SERVICE_URL cfg).
  destruct (app_calls cfg validate_int network other)
    as [Hc|[Hc|(path & body & _ & Hc)]]; rewrite Hc in Hin.
  - by apply elem_of_nil in Hin.
  - apply list_elem_of_singleton in Hin as ->. by exists "/health".
  - apply list_elem_of_singleton in Hin as ->. by exists path.
Qed.

Lemma root_lists_the_base_url_in_use_witness :
  req_method (get "/") = "GET" ∧ req_path (get "/") = "/"
  ∧ ∃ services,
      app default_config decimal_int (always (Responded two_cookies)) (get "/")
      = (JSONResponse 200
           (GatewayInfo "API Gateway" "1.0.0" "microservices" services), [])
      ∧ PyDict.get "tasks" services = Some "http://localhost:8003".
Proof.
  do 2 (split; [reflexivity|]).
  destruct (root_lists_the_base_url_in_use default_config decimal_int
              (always (Responded two_cookies)) (get "/") eq_refl eq_refl)
    as (services & Happ & Htasks & _).
  exists services. split; [exact Happ|exact Htasks].
Defined.

(** * The task service *)

(** ** Sanitising *)

Arguments TaskService.isspace : simpl never.

Section SanitizeFacts.
Import TaskService.
Context (bleach_clean : string → string).

Lemma lstrip_starts s : starts_with_space (lstrip s) = false.
Proof.
  induction s as [|c s IH]; simpl; [done|].
  destruct (isspace c) eqn:Hc; [done|]. simpl. done.
Qed.

Lemma rstrip_ends s : ends_with_space (rstrip s) = false.
Proof.
  induction s as [|c s IH]; simpl; [done|].
  destruct (rstrip s) as [|c' r] eqn:Hr.
  - destruct (isspace c) eqn:Hc; simpl; done.
  - exact IH.
Qed.

Lemma lstrip_ends s : ends_with_space s = false → ends_with_space (lstrip s) = false.
Proof.
  induction s as [|c s IH]; simpl; [done|].
  destruct (isspace c) eqn:Hc.
  - destruct s as [|c' s]; [done|]. exact IH.
  - simpl. by rewrite ?Hc.
Qed.

Lemma strip_no_outer_space s :
  starts_with_space (strip s) = false ∧ ends_with_space (strip s) = false.
Proof.
  unfold strip. split; [apply lstrip_starts|apply lstrip_ends, rstrip_ends].
Qed.

(** X8. Whatever the cleaner returns, a sanitised text neither starts nor
    ends with white space (the empty text is returned as it is). *)
Theorem sanitize_string_strips_outer_space text max_length :
  starts_with_space (sanitize_string bleach_clean text max_length) = false
  ∧ ends_with_space (sanitize_string bleach_clean text max_length) = false.
Proof.
  unfold sanitize_string. destruct (String.eqb_spec text "") as [->|_]; [done|].
  apply strip_no_outer_space.
Qed.

Lemma take_chars_append n s t :
  (n ≤ String.length s)%nat → take_chars n (s +:+ t) = take_chars n s.
Proof.
  revert s. induction n as [|n IH]; intros [|c s] Hn; simpl in *; try done; try lia.
  change (String c s +:+ t) with (String c (s +:+ t)). simpl.
  by rewrite IH by lia.
Qed.

(** X9. The text is cut to [max_length] characters before it is cleaned:
    what follows the first [max_length] characters of a text has no
    influence on the result. *)
Theorem sanitize_string_reads_a_prefix text extra max_length :
  text ≠ "" → 0 <= max_length <= Z.of_nat (String.length text) →
  sanitize_string bleach_clean (text +:+ extra) max_length
  = sanitize_string bleach_clean text max_length.
Proof.
  intros Hne Hm. unfold sanitize_string, slice_to.
  destruct text as [|c text]; [done|].
  change (String c text +:+ extra) with (String c (text +:+ extra)).
  simpl String.eqb. destruct (Z.ltb_spec max_length 0) as [?|_]; [lia|].
  change (String c (text +:+ extra)) with (String c text +:+ extra).
  rewrite take_chars_append by lia. done.
Qed.

(** X10. [sanitize_tags] gives one tag for every tag of the list that is
    not empty, and none of them starts or ends with white space. *)
Theorem sanitize_tags_drops_empty_tags tags :
  length (sanitize_tags bleach_clean tags)
  = length (filter (fun tag => tag ≠ "") tags)
  ∧ Forall (fun tag => starts_with_space tag = false ∧ ends_with_space tag = false)
           (sanitize_tags bleach_clean tags).
Proof.
  unfold sanitize_tags. destruct tags as [|tag tags]; [by split|].
  split; [by rewrite length_map|].
  apply Forall_forall. intros t (tag' & -> & _)%list_elem_of_fmap.
  unfold sanitize_string. destruct (String.eqb_spec tag' "") as [->|_]; [done|].
  apply strip_no_outer_space.
Qed.

End SanitizeFacts.

Lemma sanitize_string_reads_a_prefix_witness :
  "<b>note</b> " ≠ "" ∧ 0 <= 7 <= Z.of_nat (String.length "<b>note</b> ")
  ∧ TaskService.sanitize_string (fun text => text) ("<b>note</b> " +:+ "tail") 7
    = TaskService.sanitize_string (fun text => text) "<b>note</b> " 7.
Proof.
  assert (Hne : "<b>note</b> " ≠ "") by discriminate.
  assert (Hm : 0 <= 7 <= Z.of_nat (String.length "<b>note</b> ")) by (simpl; lia).
  split; [exact Hne|]. split; [exact Hm|].
  exact (sanitize_string_reads_a_prefix (fun text => text)
           "<b>note</b> " "tail" 7 Hne Hm).
Defined.

(** ** The table of tasks *)

Section DatabaseFacts.
Import TaskService.
Context {datetime : Type}
        (isoformat : datetime → string)
        (fromisoformat : string → option datetime)
        (json_dumps : list string → string)
        (json_loads : string → option (list string)).

Local Abbreviation Task := (@Task datetime).
Local Abbreviation Database := Database.
Local Abbreviation decode := (_row_to_task fromisoformat json_loads).
Local Abbreviation create := (create_task isoformat json_dumps).
Local Abbreviation read := (get_task fromisoformat json_loads).
Local Abbreviation read_all := (get_tasks fromisoformat json_loads).
Local Abbreviation update := (update_task isoformat json_dumps).
Local Abbreviation set_status := (update_task_status isoformat fromisoformat json_loads).
Local Abbreviation storable := (storable isoformat fromisoformat json_dumps json_loads).
Local Abbreviation run := (run isoformat fromisoformat json_dumps json_loads).
Local Abbreviation step := (step isoformat fromisoformat json_dumps json_loads).
Local Abbreviation readable := (readable fromisoformat json_loads).
Local Abbreviation writable := (writable isoformat fromisoformat json_dumps json_loads).

Lemma fits_int64_spec n : fits_int64 n = true ↔ INT64_MIN <= n <= INT64_MAX.
Proof. unfold fits_int64. by rewrite andb_true_iff, !Z.leb_le. Qed.

Lemma TaskStatus_of_value s : TaskStatus_of (TaskStatus_value s) = Some s.
Proof. by destruct s. Qed.

Lemma TaskPriority_of_value p : TaskPriority_of (TaskPriority_value p) = Some p.
Proof. by destruct p. Qed.

Lemma max_rowid_bound (table : list Row) :
  Forall (fun row => row_id row <= max_rowid table) table ∧ 0 <= max_rowid table.
Proof.
  induction table as [|row table [IH1 IH2]]; simpl; [split; [constructor|lia]|].
  split; [|lia]. constructor; [lia|].
  eapply Forall_impl; [exact IH1|]. simpl. intros. lia.
Qed.

Lemma filter_id_fresh (table : list Row) i :
  Forall (fun row => row_id row < i) table →
  filter (fun row => row_id row = i) table = [].
Proof.
  induction 1 as [|row table Hrow _ IH]; [done|].
  rewrite filter_cons_False by lia. done.
Qed.

Lemma filter_id_map (f : Row → Row) (table : list Row) i :
  (∀ row, row_id (f row) = row_id row) →
  filter (fun row => row_id row = i) (map f table)
  = map f (filter (fun row => row_id row = i) table).
Proof.
  intros Hf. induction table as [|row table IH]; [done|]. cbn [map].
  destruct (decide (row_id row = i)) as [Heq|Hne].
  - rewrite !filter_cons_True by (by rewrite ?Hf). cbn [map]. by rewrite IH.
  - rewrite !filter_cons_False by (by rewrite ?Hf). done.
Qed.

Lemma filter_id_delete (table : list Row) i j :
  filter (fun row => row_id row = j) (filter (fun row => row_id row ≠ i) table)
  = if bool_decide (j = i) then [] else filter (fun row => row_id row = j) table.
Proof.
  induction table as [|row table IH]; [by case_bool_decide|].
  destruct (decide (row_id row = i)) as [Heq|Hne].
  - rewrite (filter_cons_False (fun row => row_id row ≠ i)) by (simpl; tauto).
    rewrite IH. case_bool_decide; [done|].
    rewrite (filter_cons_False (fun row => row_id row = j)) by (simpl; congruence).
    done.
  - rewrite (filter_cons_True (fun row => row_id row ≠ i)) by done.
    destruct (decide (row_id row = j)) as [Hj|Hj].
    + rewrite !filter_cons_True by done. rewrite IH.
      rewrite bool_decide_eq_false_2 by congruence. done.
    + rewrite !filter_cons_False by done. exact IH.
Qed.

Lemma rowcount_fetchone i (db : Database) :
  rowcount i db = 0%nat ↔ fetchone i db = None.
Proof.
  unfold rowcount, fetchone.
  destruct (filter (fun row => row_id row = i) (rows db)); simpl; split; done.
Qed.

Lemma decode_created (task : Task) i :
  storable task →
  decode
    {| row_id := i;
       row_title := title task;
       row_description := description task;
       row_status := TaskStatus_value (status task);
       row_priority := TaskPriority_value (priority task);
       row_user_id := user_id task;
       row_project_id := project_id task;
       row_created_at := isoformat (created_at task);
       row_updated_at := isoformat (updated_at task);
       row_due_date := isoformat <$> due_date task;
       row_tags := Some (json_dumps (tags task)) |}
  = Some (set_id i task).
Proof.
  intros (Hc & Hu & Hd & Ht & Hne). unfold _row_to_task. simpl.
  rewrite TaskStatus_of_value, TaskPriority_of_value. simpl.
  rewrite Hc, Hu. simpl.
  destruct (String.eqb_spec (json_dumps (tags task)) ""); [done|].
  rewrite Ht.
  destruct (due_date task) as [d|] eqn:Hdue; simpl.
  - destruct Hd as [Hd Hdne].
    destruct (String.eqb_spec (isoformat d) ""); [done|].
    rewrite Hd. simpl. unfold set_id. by rewrite Hdue.
  - unfold set_id. by rewrite Hdue.
Qed.

Lemma create_returns (task : Task) (db : Database) :
  fits_int64 (user_id task) = true → fits_int64 (project_id task) = true →
  Z.max (sequence db) (max_rowid (rows db)) < INT64_MAX →
  create task db
  = (Returns (set_id (Z.max (sequence db) (max_rowid (rows db)) + 1) task),
     {| rows := rows db
                ++ [{| row_id := Z.max (sequence db) (max_rowid (rows db)) + 1;
                       row_title := title task;
                       row_description := description task;
                       row_status := TaskStatus_value (status task);
                       row_priority := TaskPriority_value (priority task);
                       row_user_id := user_id task;
                       row_project_id := project_id task;
                       row_created_at := isoformat (created_at task);
                       row_updated_at := isoformat (updated_at task);
                       row_due_date := isoformat <$> due_date task;
                       row_tags := Some (json_dumps (tags task)) |}];
        sequence := Z.max (sequence db) (max_rowid (rows db)) + 1 |}).
Proof.
  intros Hu Hp Hl. unfold create_task. rewrite Hu, Hp. cbn [andb].
  by rewrite (proj2 (Z.ltb_lt _ _) Hl).
Qed.

(** A method that raises leaves the table as it was; [create_task] that
    returns has stored a row. *)
Lemma create_cases (task : Task) (db : Database) :
  (∃ e, create task db = (Raises e, db))
  ∨ (fits_int64 (user_id task) = true ∧ fits_int64 (project_id task) = true
     ∧ Z.max (sequence db) (max_rowid (rows db)) < INT64_MAX).
Proof.
  unfold create_task.
  destruct (fits_int64 (user_id task)); [|left; by eexists].
  destruct (fits_int64 (project_id task)); [|left; by eexists]. cbn [andb].
  destruct (Z.ltb_spec (Z.max (sequence db) (max_rowid (rows db))) INT64_MAX);
    [by right|left; by eexists].
Qed.

(** [get_task] looks at the rows with the id only. *)
Lemma read_ext i (db db' : Database) :
  fetchone i db' = fetchone i db → read i db' = read i db.
Proof. unfold get_task. by intros ->. Qed.

Lemma read_fetch i (db : Database) :
  fits_int64 i = true →
  read i db = match fetchone i db with
              | Some row => match decode row with
                            | Some task => Returns (Some task)
                            | None => Raises ValueError
                            end
              | None => Returns None
              end.
Proof. intros Hi. unfold get_task. by rewrite Hi. Qed.

Lemma read_returns i (db : Database) found :
  read i db = Returns found → fits_int64 i = true.
Proof. unfold get_task. by destruct (fits_int64 i). Qed.

(** X11. [create_task] of a task whose [user_id] and [project_id] are
    within 64 bits, on a table that has an id left, gives the task an id
    above every id in the table; reading that id back gives the task as it
    was handed in, with the id set, provided the text forms of its dates
    and tags read back; and every other id reads as before. *)
Theorem create_task_then_get_task (task : Task) (db : Database) :
  storable task →
  fits_int64 (user_id task) = true → fits_int64 (project_id task) = true →
  Z.max (sequence db) (max_rowid (rows db)) < INT64_MAX →
  ∃ i,
    fst (create task db) = Returns (set_id i task)
    ∧ Forall (fun row => row_id row < i) (rows db)
    ∧ read i (snd (create task db)) = Returns (Some (set_id i task))
    ∧ ∀ j, j ≠ i → read j (snd (create task db)) = read j db.
Proof.
  intros Hs Hu Hp Hl.
  exists (Z.max (sequence db) (max_rowid (rows db)) + 1).
  rewrite (create_returns _ _ Hu Hp Hl). cbn [fst snd].
  pose proof (max_rowid_bound (rows db)) as [Hbound Hmax].
  assert (Hfresh : Forall (fun row => row_id row
                             < Z.max (sequence db) (max_rowid (rows db)) + 1)
                          (rows db)).
  { eapply Forall_impl; [exact Hbound|]. simpl. intros. lia. }
  assert (Hfit : fits_int64 (Z.max (sequence db) (max_rowid (rows db)) + 1) = true).
  { apply fits_int64_spec. unfold INT64_MIN, INT64_MAX in *. lia. }
  split; [done|]. split; [done|]. split.
  - rewrite (read_fetch _ _ Hfit). unfold fetchone. cbn [rows].
    rewrite filter_app, (filter_id_fresh _ _ Hfresh). simpl.
    rewrite filter_cons_True by done. simpl.
    by rewrite (decode_created _ _ Hs).
  - intros j Hj. apply read_ext. unfold fetchone. cbn [rows].
    rewrite filter_app. rewrite (filter_cons_False _ _ []) by (simpl; congruence).
    by rewrite filter_nil, app_nil_r.
Qed.

Lemma step_sequence (db : Database) op : sequence db <= sequence (step db op).
Proof.
  destruct op as [task|i task now|i st now|i]; simpl.
  - destruct (create_cases task db) as [[e ->]|(Hu & Hp & Hl)]; [simpl; lia|].
    rewrite (create_returns _ _ Hu Hp Hl). simpl. lia.
  - unfold update_task. destruct (_ && _); [|simpl; lia].
    destruct (Nat.eqb _ _); simpl; lia.
  - unfold update_task_status. destruct (fits_int64 i); [|simpl; lia].
    destruct (Nat.eqb _ _); simpl; lia.
  - unfold delete_task. destruct (fits_int64 i); simpl; lia.
Qed.

Lemma run_sequence ops (db : Database) : sequence db <= sequence (run ops db).
Proof.
  revert db. induction ops as [|op ops IH]; intros db; simpl; [lia|].
  etrans; [apply (step_sequence db op)|apply IH].
Qed.

Lemma create_returned (task : Task) (db : Database) created :
  fst (create task db) = Returns created →
  created = set_id (Z.max (sequence db) (max_rowid (rows db)) + 1) task
  ∧ sequence (snd (create task db))
    = Z.max (sequence db) (max_rowid (rows db)) + 1.
Proof.
  destruct (create_cases task db) as [[e ->]|(Hu & Hp & Hl)]; [done|].
  rewrite (create_returns _ _ Hu Hp Hl). cbn [fst snd sequence].
  by intros [= <-].
Qed.

(** X12. An id is handed out once: whatever is created, updated or deleted
    after [create_task] returned a task, a later [create_task] that returns
    gives a larger id, also when the first task is gone by then. *)
Theorem ids_are_never_reused (first later : Task) ops (db : Database) t1 t2 :
  fst (create first db) = Returns t1 →
  fst (create later (run ops (snd (create first db)))) = Returns t2 →
  ∃ i j, id t1 = Some i ∧ id t2 = Some j ∧ i < j.
Proof.
  intros [-> Hseq1]%create_returned [-> _]%create_returned.
  pose proof (run_sequence ops (snd (create first db))) as Hseq.
  set (db' := run ops (snd (create first db))) in *.
  exists (Z.max (sequence db) (max_rowid (rows db)) + 1),
         (Z.max (sequence db') (max_rowid (rows db')) + 1).
  split; [reflexivity|]. split; [reflexivity|]. lia.
Qed.

(** X13. [delete_task] of an id within 64 bits answers whether the id was
    in the table; afterwards the id reads as missing, a second delete
    answers [False], and every other id reads as before. *)
Theorem delete_task_removes_the_task task_id (db : Database) :
  fits_int64 task_id = true →
  (fst (delete_task task_id db) = Returns true ↔ read task_id db ≠ Returns None)
  ∧ read task_id (snd (delete_task task_id db)) = Returns None
  ∧ fst (delete_task task_id (snd (delete_task task_id db))) = Returns false
  ∧ ∀ j, j ≠ task_id → read j (snd (delete_task task_id db)) = read j db.
Proof.
  intros Hfit. unfold delete_task. rewrite Hfit. cbn [fst snd].
  rewrite !(read_fetch _ _ Hfit). unfold fetchone, rowcount. cbn [rows].
  split; [|split; [|split]].
  - destruct (filter _ (rows db)) as [|row rest]; simpl; [split; done|].
    split; [|done]. intros _. by destruct (decode row).
  - rewrite filter_id_delete. by rewrite bool_decide_eq_true_2.
  - rewrite filter_id_delete. by rewrite bool_decide_eq_true_2.
  - intros j Hj. apply read_ext. unfold fetchone. cbn [rows].
    rewrite filter_id_delete. by rewrite bool_decide_eq_false_2.
Qed.

Lemma decode_inv (row : Row) (task : Task) :
  decode row = Some task →
  id task = Some (row_id row)
  ∧ title task = row_title row
  ∧ description task = row_description row
  ∧ TaskStatus_of (row_status row) = Some (status task)
  ∧ TaskPriority_of (row_priority row) = Some (priority task)
  ∧ user_id task = row_user_id row
  ∧ project_id task = row_project_id row
  ∧ fromisoformat (row_created_at row) = Some (created_at task)
  ∧ fromisoformat (row_updated_at row) = Some (updated_at task)
  ∧ match row_due_date row with
    | Some text =>
        if String.eqb text "" then Some None else Some <$> fromisoformat text
    | None => Some None
    end = Some (due_date task)
  ∧ match row_tags row with
    | Some text => if String.eqb text "" then Some [] else json_loads text
    | None => Some []
    end = Some (tags task).
Proof.
  unfold _row_to_task.
  destruct (TaskStatus_of (row_status row)) as [s|]; [|done].
  destruct (TaskPriority_of (row_priority row)) as [p|]; [|done].
  destruct (fromisoformat (row_created_at row)) as [c|]; [|done].
  destruct (fromisoformat (row_updated_at row)) as [u|]; [|done]. simpl.
  destruct (match row_due_date row with
            | Some text =>
                if String.eqb text "" then Some None else Some <$> fromisoformat text
            | None => Some None
            end) as [d|]; [|done]. simpl.
  destruct (match row_tags row with
            | Some text => if String.eqb text "" then Some [] else json_loads text
            | None => Some []
            end) as [t|]; [|done]. simpl.
  intros [= <-]. simpl. repeat split; done.
Qed.

Lemma fetchone_id i (db : Database) row :
  fetchone i db = Some row → row_id row = i.
Proof.
  unfold fetchone. intros Hh.
  assert (Hin : row ∈ filter (fun row => row_id row = i) (rows db)).
  { destruct (filter _ (rows db)) as [|r rest]; [done|].
    injection Hh as ->. by left. }
  by apply list_elem_of_filter in Hin as [? _].
Qed.

Lemma fetchone_map (f : Row → Row) i (table : list Row) seq seq' :
  (∀ row, row_id (f row) = row_id row) →
  fetchone i {| rows := map f table; sequence := seq' |}
  = f <$> fetchone i {| rows := table; sequence := seq |}.
Proof.
  intros Hf. unfold fetchone. simpl. rewrite (filter_id_map f _ _ Hf).
  by destruct (filter _ table).
Qed.

Lemma map_off_target (f : Row → Row) i (table : list Row) :
  (∀ row, row_id row ≠ i → f row = row) →
  filter (fun row => row_id row = i) table = [] →
  map f table = table.
Proof.
  intros Hf. induction table as [|row table IH]; [done|]. cbn [map].
  destruct (decide (row_id row = i)) as [Heq|Hne].
  - rewrite filter_cons_True by done. done.
  - rewrite filter_cons_False by done. intros Hnil.
    by rewrite (Hf _ Hne), IH.
Qed.

(** X14. For a task whose [user_id] and [project_id] are within 64 bits:
    [update_task] on an id that is not in the table returns [None] and
    leaves the table as it was.  On an id that is there it returns the task
    it was given, with the id and the time of the update set; the stored
    row takes every field of that task except [created_at], which stays
    what it was, so the task read back carries the old creation time; and
    every other id reads as before. *)
Theorem update_task_keeps_created_at task_id (task : Task) now (db : Database) :
  fits_int64 (user_id task) = true → fits_int64 (project_id task) = true →
  (read task_id db = Returns None →
   update task_id task now db = (Returns None, db))
  ∧ (∀ old,
       read task_id db = Returns (Some old) →
       storable (set_updated_at now task) →
       fst (update task_id task now db)
       = Returns (Some (set_id task_id (set_updated_at now task)))
       ∧ read task_id (snd (update task_id task now db))
         = Returns
             (Some {| id := Some task_id;
                      title := title task; description := description task;
                      status := status task; priority := priority task;
                      user_id := user_id task; project_id := project_id task;
                      created_at := created_at old; updated_at := now;
                      due_date := due_date task; tags := tags task |}))
  ∧ ∀ j, j ≠ task_id →
         read j (snd (update task_id task now db)) = read j db.
Proof.
  intros Hu Hp.
  set (f := fun row : Row =>
              if bool_decide (row_id row = task_id)
              then {| row_id := row_id row;
                      row_title := title (set_updated_at now task);
                      row_description := description (set_updated_at now task);
                      row_status := TaskStatus_value (status (set_updated_at now task));
                      row_priority :=
                        TaskPriority_value (priority (set_updated_at now task));
                      row_user_id := user_id (set_updated_at now task);
                      row_project_id := project_id (set_updated_at now task);
                      row_created_at := row_created_at row;
                      row_updated_at := isoformat (updated_at (set_updated_at now task));
                      row_due_date := isoformat <$> due_date (set_updated_at now task);
                      row_tags := Some (json_dumps (tags (set_updated_at now task))) |}
              else row).
  assert (Hid : ∀ row, row_id (f row) = row_id row).
  { intros row. unfold f. by case_bool_decide. }
  assert (Hoff : ∀ row, row_id row ≠ task_id → f row = row).
  { intros row Hne. unfold f. by rewrite bool_decide_eq_false_2. }
  assert (Hupd : update task_id task now db
                 = if fits_int64 (user_id task) && fits_int64 (project_id task)
                      && fits_int64 task_id
                   then
                     if Nat.eqb (rowcount task_id db) 0
                     then (Returns None,
                           {| rows := map f (rows db); sequence := sequence db |})
                     else (Returns (Some (set_id task_id (set_updated_at now task))),
                           {| rows := map f (rows db); sequence := sequence db |})
                   else (Raises OverflowError, db)) by reflexivity.
  rewrite Hu, Hp in Hupd. cbn [andb] in Hupd.
  destruct (fits_int64 task_id) eqn:Hfit; cycle 1.
  { rewrite Hupd. unfold get_task at 1 2. rewrite Hfit. cbn [snd].
    split; [done|]. split; done. }
  assert (Hdb : snd (update task_id task now db)
                = {| rows := map f (rows db); sequence := sequence db |}).
  { rewrite Hupd. by destruct (Nat.eqb _ _). }
  split; [|split].
  - rewrite (read_fetch _ _ Hfit).
    destruct (fetchone task_id db) as [row|] eqn:Hrow.
    { by destruct (decode row). }
    intros _. rewrite Hupd.
    pose proof (proj2 (rowcount_fetchone task_id db) Hrow) as Hcount.
    rewrite Hcount. simpl. f_equal. destruct db as [table seq]. simpl. f_equal.
    apply (map_off_target f task_id); [done|].
    unfold fetchone in Hrow. simpl in Hrow.
    by destruct (filter _ table).
  - intros old. rewrite (read_fetch _ _ Hfit).
    destruct (fetchone task_id db) as [row|] eqn:Hrow; [|done].
    destruct (decode row) as [t|] eqn:Hdec; [|done]. intros [= ->] Hs.
    split.
    + rewrite Hupd.
      destruct (Nat.eqb_spec (rowcount task_id db) 0) as [Hz|_]; [|done].
      apply rowcount_fetchone in Hz. congruence.
    + rewrite Hdb, (read_fetch _ _ Hfit).
      destruct db as [table seq]. simpl.
      rewrite (fetchone_map f task_id table seq seq Hid), Hrow. simpl.
      pose proof (fetchone_id _ _ _ Hrow) as Hi.
      apply decode_inv in Hdec as (_ & _ & _ & _ & _ & _ & _ & Hc & _).
      destruct Hs as (_ & Hupdated & Hd & Ht & Hne).
      simpl in Hupdated, Hd, Ht, Hne.
      unfold f. rewrite bool_decide_eq_true_2 by done.
      unfold _row_to_task. simpl.
      rewrite TaskStatus_of_value, TaskPriority_of_value. simpl.
      rewrite Hc, Hupdated. simpl.
      destruct (String.eqb_spec (json_dumps (tags task)) ""); [done|].
      rewrite Ht, Hi.
      destruct (due_date task) as [d|] eqn:Hdue; simpl; [|done].
      destruct Hd as [Hd Hdne].
      destruct (String.eqb_spec (isoformat d) ""); [done|].
      by rewrite Hd.
  - intros j Hj. rewrite Hdb. apply read_ext. destruct db as [table seq].
    cbn [rows sequence].
    rewrite (fetchone_map f j table seq seq Hid).
    destruct (fetchone j {| rows := table; sequence := seq |}) as [row|] eqn:Hrow;
      [|done].
    simpl. rewrite Hoff; [done|].
    by rewrite (fetchone_id _ _ _ Hrow).
Qed.

(** X15. [update_task_status] on an id that is not in the table returns
    [None] and leaves the table as it was.  On an id that is there it
    returns the task as the table now holds it: the task it held before,
    with the new status and the time of the update, every other field
    untouched; and every other id reads as before. *)
Theorem update_task_status_changes_status_only
    task_id new_status now (db : Database) :
  (read task_id db = Returns None →
   set_status task_id new_status now db = (Returns None, db))
  ∧ (∀ old,
       read task_id db = Returns (Some old) →
       fromisoformat (isoformat now) = Some now →
       fst (set_status task_id new_status now db)
       = Returns
           (Some {| id := id old;
                    title := title old; description := description old;
                    status := new_status; priority := priority old;
                    user_id := user_id old; project_id := project_id old;
                    created_at := created_at old; updated_at := now;
                    due_date := due_date old; tags := tags old |})
       ∧ read task_id (snd (set_status task_id new_status now db))
         = fst (set_status task_id new_status now db))
  ∧ ∀ j, j ≠ task_id →
         read j (snd (set_status task_id new_status now db)) = read j db.
Proof.
  set (f := fun row : Row =>
              if bool_decide (row_id row = task_id)
              then {| row_id := row_id row;
                      row_title := row_title row;
                      row_description := row_description row;
                      row_status := TaskStatus_value new_status;
                      row_priority := row_priority row;
                      row_user_id := row_user_id row;
                      row_project_id := row_project_id row;
                      row_created_at := row_created_at row;
                      row_updated_at := isoformat now;
                      row_due_date := row_due_date row;
                      row_tags := row_tags row |}
              else row).
  assert (Hid : ∀ row, row_id (f row) = row_id row).
  { intros row. unfold f. by case_bool_decide. }
  assert (Hoff : ∀ row, row_id row ≠ task_id → f row = row).
  { intros row Hne. unfold f. by rewrite bool_decide_eq_false_2. }
  assert (Hset : set_status task_id new_status now db
                 = if fits_int64 task_id
                   then
                     if Nat.eqb (rowcount task_id db) 0
                     then (Returns None,
                           {| rows := map f (rows db); sequence := sequence db |})
                     else (read task_id
                             {| rows := map f (rows db); sequence := sequence db |},
                           {| rows := map f (rows db); sequence := sequence db |})
                   else (Raises OverflowError, db)) by reflexivity.
  destruct (fits_int64 task_id) eqn:Hfit; cycle 1.
  { rewrite Hset. unfold get_task at 1 2. rewrite Hfit. cbn [snd].
    split; [done|]. split; done. }
  assert (Hdb : snd (set_status task_id new_status now db)
                = {| rows := map f (rows db); sequence := sequence db |}).
  { rewrite Hset. by destruct (Nat.eqb _ _). }
  split; [|split].
  - rewrite (read_fetch _ _ Hfit).
    destruct (fetchone task_id db) as [row|] eqn:Hrow.
    { by destruct (decode row). }
    intros _. rewrite Hset.
    pose proof (proj2 (rowcount_fetchone task_id db) Hrow) as Hcount.
    rewrite Hcount. simpl. f_equal. destruct db as [table seq]. simpl. f_equal.
    apply (map_off_target f task_id); [done|].
    unfold fetchone in Hrow. simpl in Hrow.
    by destruct (filter _ table).
  - intros old. rewrite (read_fetch _ _ Hfit).
    destruct (fetchone task_id db) as [row|] eqn:Hrow; [|done].
    destruct (decode row) as [t|] eqn:Hdec; [|done]. intros [= ->] Hnow.
    assert (Hfst : fst (set_status task_id new_status now db)
                   = read task_id (snd (set_status task_id new_status now db))).
    { rewrite Hdb, Hset.
      destruct (Nat.eqb_spec (rowcount task_id db) 0) as [Hz|_]; [|done].
      apply rowcount_fetchone in Hz. congruence. }
    split; [|done]. rewrite Hfst, Hdb, (read_fetch _ _ Hfit).
    destruct db as [table seq]. cbn [rows sequence].
    rewrite (fetchone_map f task_id table seq seq Hid), Hrow. simpl.
    pose proof (fetchone_id _ _ _ Hrow) as Hi.
    apply decode_inv in Hdec
      as (Hoid & Hti & Hde & _ & Hpr & Hus & Hpj & Hc & _ & Hd & Ht).
    unfold f. rewrite bool_decide_eq_true_2 by done.
    unfold _row_to_task. simpl.
    rewrite TaskStatus_of_value, Hpr. simpl. rewrite Hc, Hnow. simpl.
    rewrite Hd. simpl. rewrite Ht. simpl.
    by rewrite Hoid, Hti, Hde, Hus, Hpj.
  - intros j Hj. rewrite Hdb. apply read_ext. destruct db as [table seq].
    cbn [rows sequence].
    rewrite (fetchone_map f j table seq seq Hid).
    destruct (fetchone j {| rows := table; sequence := seq |}) as [row|] eqn:Hrow;
      [|done].
    simpl. rewrite Hoff; [done|].
    by rewrite (fetchone_id _ _ _ Hrow).
Qed.

(** X16. When [get_tasks()] returns, [get_tasks(user_id)] with a
    [user_id] within 64 bits returns exactly the tasks of [get_tasks()]
    that belong to the user, in the same order. *)
Theorem get_tasks_of_a_user user (db : Database) tasks :
  read_all None db = Returns tasks →
  fits_int64 user = true →
  read_all (Some user) db
  = Returns (filter (fun task => user_id task = user) tasks).
Proof.
  unfold get_tasks, fetchall. cbn [from_option]. intros Hall ->.
  destruct (mapM decode (rows db)) as [all|] eqn:Hmap; [|done].
  injection Hall as ->. apply mapM_Some_1 in Hmap.
  assert (Hsel : mapM decode (filter (fun row => row_user_id row = user) (rows db))
                 = Some (filter (fun task => user_id task = user) tasks)).
  { apply mapM_Some_2.
    induction Hmap as [|row task table tasks' Hdec _ IH]; [constructor|].
    pose proof (decode_inv _ _ Hdec) as (_ & _ & _ & _ & _ & Hu & _).
    destruct (decide (row_user_id row = user)) as [Heq|Hne].
    - rewrite !filter_cons_True by (simpl; congruence). by constructor.
    - rewrite !filter_cons_False by (simpl; congruence). done. }
  by rewrite Hsel.
Qed.

Lemma ascending_snoc ids i :
  ascending ids → Forall (fun j => j < i) ids → ascending (ids ++ [i]).
Proof.
  induction ids as [|j ids IH]; simpl; [by intros _ _; split; [constructor|]|].
  intros [Hj Hasc] [Hji Hall]%Forall_cons. split; [|by apply IH].
  apply Forall_app. split; [done|]. by constructor.
Qed.

Lemma ascending_filter (P : Row → Prop) `{∀ row, Decision (P row)}
    (table : list Row) :
  ascending (map row_id table) → ascending (map row_id (filter P table)).
Proof.
  induction table as [|row table IH]; [done|]. cbn [map ascending].
  intros [Hrow Hasc]. destruct (decide (P row)).
  - rewrite filter_cons_True by done. cbn [map ascending]. split; [|by apply IH].
    apply Forall_forall. intros j (r & -> & Hr)%list_elem_of_fmap.
    apply list_elem_of_filter in Hr as [_ Hr].
    rewrite Forall_forall in Hrow. apply Hrow, list_elem_of_fmap. by exists r.
  - rewrite filter_cons_False by done. by apply IH.
Qed.

Lemma map_keeps_valid (f : Row → Row) (table : list Row) seq :
  (∀ row, row_id (f row) = row_id row) →
  valid {| rows := table; sequence := seq |} →
  valid {| rows := map f table; sequence := seq |}.
Proof.
  intros Hf [Hasc Hbound]. unfold valid in *. simpl in *. split.
  - rewrite map_map. erewrite map_ext; [exact Hasc|]. intros row. apply Hf.
  - apply Forall_forall. intros r (row & -> & Hr)%list_elem_of_fmap.
    rewrite Hf. rewrite Forall_forall in Hbound. by apply Hbound.
Qed.

Lemma step_valid (db : Database) op : valid db → valid (step db op).
Proof.
  intros Hv. destruct op as [task|i task now|i s now|i]; simpl.
  - destruct (create_cases task db) as [[e ->]|(Hu & Hp & Hl)]; [done|].
    rewrite (create_returns _ _ Hu Hp Hl). cbn [snd].
    destruct Hv as [Hasc Hbound]. unfold valid. simpl.
    pose proof (max_rowid_bound (rows db)) as [_ Hmax].
    split.
    + rewrite map_app. simpl. apply ascending_snoc; [done|].
      apply Forall_forall. intros j (r & -> & Hr)%list_elem_of_fmap.
      rewrite Forall_forall in Hbound. specialize (Hbound _ Hr). lia.
    + apply Forall_app. split; [|constructor; [simpl; lia|constructor]].
      eapply Forall_impl; [exact Hbound|]. simpl. intros. lia.
  - destruct db as [table seq].
    unfold update_task. destruct (_ && _); [|done].
    destruct (Nat.eqb _ _); simpl;
      (apply map_keeps_valid; [|done]); intros row; by case_bool_decide.
  - destruct db as [table seq].
    unfold update_task_status. destruct (fits_int64 i); [|done].
    destruct (Nat.eqb _ _); simpl;
      (apply map_keeps_valid; [|done]); intros row; by case_bool_decide.
  - unfold delete_task. destruct (fits_int64 i); [|done].
    destruct Hv as [Hasc Hbound]. unfold valid. simpl. split.
    + by apply ascending_filter.
    + apply Forall_forall. intros r [_ Hr]%list_elem_of_filter.
      rewrite Forall_forall in Hbound. by apply Hbound.
Qed.

Lemma step_readable (db : Database) op :
  readable db → writable op → readable (step db op).
Proof.
  unfold readable. intros Hr Hw.
  destruct op as [task|i task now|i s now|i]; simpl in *.
  - destruct (create_cases task db) as [[e ->]|(Hu & Hp & Hl)]; [done|].
    rewrite (create_returns _ _ Hu Hp Hl). cbn [snd rows].
    apply Forall_app. split; [done|].
    constructor; [|constructor]. by rewrite (decode_created _ _ Hw).
  - assert (Hrows : rows (snd (update i task now db)) = rows db
                    ∨ rows (snd (update i task now db))
                    = map (fun row : Row =>
                             if bool_decide (row_id row = i)
                             then {| row_id := row_id row;
                                     row_title := title task;
                                     row_description := description task;
                                     row_status := TaskStatus_value (status task);
                                     row_priority := TaskPriority_value (priority task);
                                     row_user_id := user_id task;
                                     row_project_id := project_id task;
                                     row_created_at := row_created_at row;
                                     row_updated_at := isoformat now;
                                     row_due_date := isoformat <$> due_date task;
                                     row_tags := Some (json_dumps (tags task)) |}
                             else row) (rows db)).
    { unfold update_task. destruct (_ && _); [|by left].
      right. by destruct (Nat.eqb _ _). }
    destruct Hrows as [-> | ->]; [done|]. apply Forall_forall.
    intros r (row & -> & Hin)%list_elem_of_fmap.
    rewrite Forall_forall in Hr. destruct (Hr _ Hin) as [old Hold].
    case_bool_decide; [|by eexists].
    apply decode_inv in Hold as (_ & _ & _ & _ & _ & _ & _ & Hc & _).
    destruct Hw as (_ & Hu & Hd & Ht & Hne). simpl in Hu, Hd, Ht, Hne.
    unfold _row_to_task. simpl.
    rewrite TaskStatus_of_value, TaskPriority_of_value. simpl.
    rewrite Hc, Hu. simpl.
    destruct (String.eqb_spec (json_dumps (tags task)) ""); [done|].
    rewrite Ht.
    destruct (due_date task) as [d|]; simpl; [|by eexists].
    destruct Hd as [Hd Hdne].
    destruct (String.eqb_spec (isoformat d) ""); [done|].
    rewrite Hd. by eexists.
  - assert (Hrows : rows (snd (set_status i s now db)) = rows db
                    ∨ rows (snd (set_status i s now db))
                    = map (fun row : Row =>
                             if bool_decide (row_id row = i)
                             then {| row_id := row_id row;
                                     row_title := row_title row;
                                     row_description := row_description row;
                                     row_status := TaskStatus_value s;
                                     row_priority := row_priority row;
                                     row_user_id := row_user_id row;
                                     row_project_id := row_project_id row;
                                     row_created_at := row_created_at row;
                                     row_updated_at := isoformat now;
                                     row_due_date := row_due_date row;
                                     row_tags := row_tags row |}
                             else row) (rows db)).
    { unfold update_task_status. destruct (fits_int64 i); [|by left].
      right. by destruct (Nat.eqb _ _). }
    destruct Hrows as [-> | ->]; [done|]. apply Forall_forall.
    intros r (row & -> & Hin)%list_elem_of_fmap.
    rewrite Forall_forall in Hr. destruct (Hr _ Hin) as [old Hold].
    case_bool_decide; [|by eexists].
    apply decode_inv in Hold
      as (_ & _ & _ & _ & Hpr & _ & _ & Hc & _ & Hd & Ht).
    unfold _row_to_task. simpl.
    rewrite TaskStatus_of_value, Hpr. simpl. rewrite Hc, Hw. simpl.
    rewrite Hd. simpl. rewrite Ht. by eexists.
  - unfold delete_task. destruct (fits_int64 i); [|done]. cbn [snd rows].
    apply Forall_forall.
    intros r [_ Hin]%list_elem_of_filter.
    rewrite Forall_forall in Hr. by apply Hr.
Qed.

(** X17. A table that is in order and reads stays so under any run of
    [create_task], [update_task], [update_task_status] and [delete_task]
    whose written values read back, whether the calls return or raise: the
    ids stay ascending down the table and at most the counter, and
    [get_task] of an id within 64 bits, [get_tasks()] and [get_tasks] of a
    user id within 64 bits return without raising. *)
Theorem table_stays_valid_and_readable ops (db : Database) :
  valid db → readable db → Forall writable ops →
  valid (run ops db)
  ∧ readable (run ops db)
  ∧ (∀ i, fits_int64 i = true → ∃ found, read i (run ops db) = Returns found)
  ∧ (∃ tasks, read_all None (run ops db) = Returns tasks)
  ∧ (∀ user, fits_int64 user = true →
             ∃ tasks, read_all (Some user) (run ops db) = Returns tasks).
Proof.
  intros Hv Hr Hops.
  assert (Hinv : valid (run ops db) ∧ readable (run ops db)).
  { revert db Hv Hr. induction Hops as [|op ops Hop _ IH]; intros db Hv Hr; [done|].
    simpl. apply IH; [by apply step_valid|by apply step_readable]. }
  destruct Hinv as [Hv' Hr']. split; [done|]. split; [done|].
  unfold TaskService.readable in Hr'. rewrite Forall_forall in Hr'.
  assert (Hall : ∀ user,
            from_option fits_int64 true user = true →
            ∃ tasks, read_all user (run ops db) = Returns tasks).
  { intros user Hfit. unfold get_tasks. rewrite Hfit.
    assert (Hsome : is_Some (mapM decode (fetchall user (run ops db)))).
    { apply mapM_is_Some_2, Forall_forall.
      intros row Hin. apply Hr'. destruct user; [|done].
      by apply list_elem_of_filter in Hin as [_ ?]. }
    destruct Hsome as [tasks ->]. by eexists. }
  split; [|split].
  - intros i Hfit. rewrite (read_fetch _ _ Hfit).
    destruct (fetchone i (run ops db)) as [row|] eqn:Hrow; [|by eexists].
    assert (Hin : row ∈ rows (run ops db)).
    { unfold fetchone in Hrow. apply head_Some_elem_of in Hrow.
      by apply list_elem_of_filter in Hrow as [_ ?]. }
    destruct (Hr' _ Hin) as [task ->]. by eexists.
  - by apply (Hall None).
  - intros user Hfit. by apply (Hall (Some user)).
Qed.


End DatabaseFacts.

Lemma create_task_then_get_task_witness :
  TaskService.storable (fun d => d) Some example_dumps example_loads example_task
  ∧ TaskService.fits_int64 (TaskService.user_id example_task) = true
  ∧ TaskService.fits_int64 (TaskService.project_id example_task) = true
  ∧ Z.max (TaskService.sequence (@TaskService.empty_database))
          (TaskService.max_rowid (TaskService.rows (@TaskService.empty_database)))
    < TaskService.INT64_MAX
  ∧ TaskService.get_task Some example_loads 1 example_database
    = TaskService.Returns (Some (TaskService.set_id 1 example_task)).
Proof.
  assert (Hs : TaskService.storable (fun d => d) Some example_dumps example_loads
                 example_task).
  { repeat split; solve [reflexivity | discriminate]. }
  split; [exact Hs|]. split; [reflexivity|]. split; [reflexivity|].
  split; [reflexivity|].
  destruct (create_task_then_get_task (fun d => d) Some example_dumps example_loads
              example_task TaskService.empty_database Hs eq_refl eq_refl eq_refl)
    as (i & Hfst & _ & Hread & _).
  injection Hfst as <-. exact Hread.
Defined.

Lemma ids_are_never_reused_witness :
  fst (TaskService.create_task (fun d => d) example_dumps example_task
         TaskService.empty_database)
  = TaskService.Returns (TaskService.set_id 1 example_task)
  ∧ fst (TaskService.create_task (fun d => d) example_dumps example_task
           (TaskService.run (fun d => d) Some example_dumps example_loads
              [TaskService.Delete 1] example_database))
    = TaskService.Returns (TaskService.set_id 2 example_task)
  ∧ ∃ i j,
      TaskService.id (TaskService.set_id 1 example_task) = Some i
      ∧ TaskService.id (TaskService.set_id 2 example_task) = Some j
      ∧ i < j.
Proof.
  split; [reflexivity|]. split; [reflexivity|].
  exact (ids_are_never_reused (fun d => d) Some example_dumps example_loads
           example_task example_task [TaskService.Delete 1]
           TaskService.empty_database _ _ eq_refl eq_refl).
Defined.

Lemma delete_task_removes_the_task_witness :
  TaskService.fits_int64 1 = true
  ∧ fst (TaskService.delete_task 1 example_database) = TaskService.Returns true
  ∧ TaskService.get_task Some example_loads 1
      (snd (TaskService.delete_task 1 example_database))
    = TaskService.Returns None.
Proof.
  split; [reflexivity|]. split; [reflexivity|].
  exact (proj1 (proj2 (delete_task_removes_the_task Some example_loads 1
                         example_database eq_refl))).
Defined.

Lemma get_tasks_of_a_user_witness :
  TaskService.get_tasks Some example_loads None example_database
  = TaskService.Returns [TaskService.set_id 1 example_task]
  ∧ TaskService.fits_int64 7 = true
  ∧ TaskService.get_tasks Some example_loads (Some 7) example_database
    = TaskService.Returns
        (filter (fun task => TaskService.user_id task = 7)
                [TaskService.set_id 1 example_task]).
Proof.
  split; [reflexivity|]. split; [reflexivity|].
  exact (get_tasks_of_a_user Some example_loads 7 example_database
           [TaskService.set_id 1 example_task] eq_refl eq_refl).
Defined.

Lemma table_stays_valid_and_readable_witness :
  TaskService.valid (@TaskService.empty_database)
  ∧ TaskService.readable (datetime := string) Some example_loads
      TaskService.empty_database
  ∧ Forall (TaskService.writable (fun d => d) Some example_dumps example_loads)
           [TaskService.Create example_task; TaskService.Delete 1]
  ∧ TaskService.valid
      (TaskService.run (fun d => d) Some example_dumps example_loads
         [TaskService.Create example_task; TaskService.Delete 1]
         TaskService.empty_database).
Proof.
  assert (Hv : TaskService.valid (@TaskService.empty_database)).
  { split; [exact I|constructor]. }
  assert (Hr : TaskService.readable (datetime := string) Some example_loads
                 TaskService.empty_database) by constructor.
  assert (Hw : Forall (TaskService.writable (fun d => d) Some example_dumps
                         example_loads)
                      [TaskService.Create example_task; TaskService.Delete 1]).
  { constructor; [|constructor; [exact I|constructor]].
    repeat split; solve [reflexivity | discriminate]. }
  split; [exact Hv|]. split; [exact Hr|]. split; [exact Hw|].
  exact (proj1 (table_stays_valid_and_readable (fun d => d) Some example_dumps
                  example_loads _ _ Hv Hr Hw)).
Defined.

Lemma update_task_keeps_created_at_witness :
  TaskService.fits_int64 (TaskService.user_id example_task) = true
  ∧ TaskService.fits_int64 (TaskService.project_id example_task) = true
  ∧ TaskService.get_task Some example_loads 1 example_database
    = TaskService.Returns (Some (TaskService.set_id 1 example_task))
  ∧ TaskService.storable (fun d => d) Some example_dumps example_loads
      (TaskService.set_updated_at "2024-06-01T10:00:00" example_task)
  ∧ fst (TaskService.update_task (fun d => d) example_dumps 1 example_task
           "2024-06-01T10:00:00" example_database)
    = TaskService.Returns
        (Some (TaskService.set_id 1
                 (TaskService.set_updated_at "2024-06-01T10:00:00" example_task))).
Proof.
  assert (Hs : TaskService.storable (fun d => d) Some example_dumps example_loads
                 (TaskService.set_updated_at "2024-06-01T10:00:00" example_task)).
  { repeat split; solve [reflexivity | discriminate]. }
  split; [reflexivity|]. split; [reflexivity|].
  split; [reflexivity|]. split; [exact Hs|].
  exact (proj1 (proj1 (proj2 (update_task_keeps_created_at (fun d => d) Some
                                example_dumps example_loads 1 example_task
                                "2024-06-01T10:00:00" example_database
                                eq_refl eq_refl))
                      (TaskService.set_id 1 example_task) eq_refl Hs)).
Defined.

Lemma update_task_status_changes_status_only_witness :
  TaskService.get_task Some example_loads 1 example_database
  = TaskService.Returns (Some (TaskService.set_id 1 example_task))
  ∧ TaskService.status
      (TaskService.set_id 1 example_task) = TaskService.TODO
  ∧ ∃ task,
      fst (TaskService.update_task_status (fun d => d) Some example_loads 1
             TaskService.DONE "2024-06-01T10:00:00" example_database)
      = TaskService.Returns (Some task)
      ∧ TaskService.status task = TaskService.DONE
      ∧ TaskService.title task = "Write the report".
Proof.
  split; [reflexivity|]. split; [reflexivity|].
  eexists. split.
  - exact (proj1 (proj1 (proj2 (update_task_status_changes_status_only
                                  (fun d => d) Some example_loads 1
                                  TaskService.DONE "2024-06-01T10:00:00"
                                  example_database))
                        (TaskService.set_id 1 example_task) eq_refl eq_refl)).
  - split; reflexivity.
Defined.

